(** * AiConfigHelper: the message / response / apply lifecycle

    A shallow embedding of [src/AiConfigHelper.tsx] (with the types of
    [src/types.ts]) and the properties of its specification.

    The component is a React function component.  Its four [useState] cells
    ([anchorEl], [userInput], [messages], [isLoading]) are fields of one
    record; the event handlers are programs of a small state-and-exception
    monad over that record; the [async] handler [handleSendMessage] is cut
    at its single [await] into the part that runs synchronously and the
    part that resumes when the awaited promise settles.

    Conventions of the model:
    - a JavaScript string is a [string] whose characters are the code
      units 0..255 (the Latin-1 range); code units above 255 are outside
      the model;
    - a JavaScript number is an integer [Z] (the safe-integer range, where
      [Number.prototype.toString] is the decimal numeral); fractions, NaN
      and the infinities are outside the model;
    - [new Date()] reads a clock that the environment advances between
      events, [Math.random()] is an exact rational of the unit interval
      supplied by the environment. *)

From Stdlib Require Import String Ascii List ZArith QArith Qround Bool Lia.
From Stdlib Require Import DecimalString.
Import ListNotations.

Local Close Scope Q_scope.
Local Open Scope list_scope.
Local Open Scope string_scope.
#[local] Set Warnings "-register-all".

(* ------------------------------------------------------------------ *)
(** * Strings: the [String.prototype] methods the component calls      *)
(* ------------------------------------------------------------------ *)

Module JsString.

(** White space and line terminators of ECMAScript, in the range 0..255:
    TAB, LF, VT, FF, CR, SP and NBSP. *)
Definition isWhiteSpace (c : ascii) : bool :=
  let n := nat_of_ascii c in
  ((9 <=? n)%nat && (n <=? 13)%nat) || (n =? 32)%nat || (n =? 160)%nat.

Fixpoint trimStart (s : string) : string :=
  match s with
  | EmptyString => EmptyString
  | String c s' => if isWhiteSpace c then trimStart s' else s
  end.

Fixpoint trimEnd (s : string) : string :=
  match s with
  | EmptyString => EmptyString
  | String c s' =>
      match trimEnd s' with
      | EmptyString => if isWhiteSpace c then EmptyString else String c EmptyString
      | t => String c t
      end
  end.

(** [s.trim()] *)
Definition trim (s : string) : string := trimEnd (trimStart s).

(** Lower-casing of one code unit: A..Z, and the Latin-1 capitals
    U+00C0..U+00DE without the multiplication sign U+00D7. *)
Definition lowerChar (c : ascii) : ascii :=
  let n := nat_of_ascii c in
  if ((65 <=? n)%nat && (n <=? 90)%nat)
     || ((192 <=? n)%nat && (n <=? 222)%nat && negb (n =? 215)%nat)
  then ascii_of_nat (n + 32)
  else c.

(** [s.toLowerCase()] *)
Fixpoint toLowerCase (s : string) : string :=
  match s with
  | EmptyString => EmptyString
  | String c s' => String (lowerChar c) (toLowerCase s')
  end.

(** [s.startsWith(p)] *)
Fixpoint startsWith (s p : string) {struct p} : bool :=
  match p, s with
  | EmptyString, _ => true
  | String _ _, EmptyString => false
  | String b p', String a s' => Ascii.eqb a b && startsWith s' p'
  end.

(** [s.includes(sub)] *)
Fixpoint includes (s sub : string) : bool :=
  startsWith s sub
  || match s with
     | EmptyString => false
     | String _ s' => includes s' sub
     end.

(** The strings made of white space only. *)
Fixpoint allWhiteSpace (s : string) : bool :=
  match s with
  | EmptyString => true
  | String c s' => isWhiteSpace c && allWhiteSpace s'
  end.

(** [sep.join(parts)] as [Array.prototype.join] does it. *)
Fixpoint join (sep : string) (parts : list string) : string :=
  match parts with
  | [] => ""
  | [p] => p
  | p :: rest => p ++ sep ++ join sep rest
  end.

End JsString.

(* ------------------------------------------------------------------ *)
(** * Values: what [payload: any] ranges over                          *)
(* ------------------------------------------------------------------ *)

(** The JSON-compatible values and [undefined].  An object is the list of
    its own enumerable properties in enumeration order. *)
Inductive JsValue : Type :=
| VUndefined
| VNull
| VBool (b : bool)
| VNum (n : Z)
| VStr (s : string)
| VArr (items : list JsValue)
| VObj (props : list (string * JsValue)).

(** What a [throw] or a rejected promise carries: an instance of [Error]
    with its [name] and [message], or any other value. *)
Inductive Thrown : Type :=
| ErrorObject (name message : string)
| ThrownValue (v : JsValue).

Module Js.

Inductive TypeTag := TUndefined | TObject | TBoolean | TNumber | TString.

(** [typeof v]; [typeof null] is ["object"]. *)
Definition typeof (v : JsValue) : TypeTag :=
  match v with
  | VUndefined => TUndefined
  | VNull => TObject
  | VBool _ => TBoolean
  | VNum _ => TNumber
  | VStr _ => TString
  | VArr _ => TObject
  | VObj _ => TObject
  end.

Definition isObject (v : JsValue) : bool :=
  match typeof v with TObject => true | _ => false end.

(** [n.toString()] for an integer. *)
Definition Number_toString (n : Z) : string :=
  NilZero.string_of_int (Z.to_int n).

Definition Boolean_toString (b : bool) : string :=
  if b then "true" else "false".

(** [o || d] on an optional string. *)
Definition orString (o : option string) (d : string) : string :=
  match o with
  | Some s => if s =? "" then d else s
  | None => d
  end.

End Js.

(* ------------------------------------------------------------------ *)
(** * [JSON.stringify(value, null, space)]                             *)
(* ------------------------------------------------------------------ *)

Module JSON.

Definition dquote : ascii := ascii_of_nat 34.
Definition newline : string := String (ascii_of_nat 10) "".

Definition hexDigit (n : nat) : ascii :=
  if (n <? 10)%nat then ascii_of_nat (48 + n) else ascii_of_nat (87 + n).

(** The escape of one code unit in [QuoteJSONString]. *)
Definition escapeChar (c : ascii) : string :=
  let n := nat_of_ascii c in
  if (n =? 8)%nat then "\b"
  else if (n =? 9)%nat then "\t"
  else if (n =? 10)%nat then "\n"
  else if (n =? 12)%nat then "\f"
  else if (n =? 13)%nat then "\r"
  else if (n =? 34)%nat then String "\" (String dquote "")
  else if (n =? 92)%nat then "\\"
  else if (n <? 32)%nat then
    "\u00" ++ String (hexDigit (n / 16)) (String (hexDigit (n mod 16)) "")
  else String c "".

Fixpoint escape (s : string) : string :=
  match s with
  | EmptyString => EmptyString
  | String c s' => escapeChar c ++ escape s'
  end.

(** [QuoteJSONString] *)
Definition quote (s : string) : string :=
  String dquote (escape s ++ String dquote "").

(** [SerializeJSONProperty], with [SerializeJSONArray] and
    [SerializeJSONObject] inlined; [None] is the [undefined] result.
    An [undefined] array element prints as [null]; a property whose
    value is [undefined] is left out. *)
Fixpoint serialize (gap indent : string) (v : JsValue) : option string :=
  match v with
  | VUndefined => None
  | VNull => Some "null"
  | VBool b => Some (Js.Boolean_toString b)
  | VNum n => Some (Js.Number_toString n)
  | VStr s => Some (quote s)
  | VArr items =>
      let stepback := indent in
      let indent := indent ++ gap in
      let partial :=
        map (fun x => match serialize gap indent x with
                      | Some t => t
                      | None => "null"
                      end) items in
      Some match partial with
           | [] => "[]"
           | _ =>
               if gap =? "" then "[" ++ JsString.join "," partial ++ "]"
               else "[" ++ newline ++ indent
                        ++ JsString.join ("," ++ newline ++ indent) partial
                        ++ newline ++ stepback ++ "]"
           end
  | VObj props =>
      let stepback := indent in
      let indent := indent ++ gap in
      let partial :=
        flat_map (fun kv =>
                    match kv with
                    | (k, x) =>
                        match serialize gap indent x with
                        | Some t =>
                            [quote k ++ ":" ++ (if gap =? "" then "" else " ") ++ t]
                        | None => []
                        end
                    end) props in
      Some match partial with
           | [] => "{}"
           | _ =>
               if gap =? "" then "{" ++ JsString.join "," partial ++ "}"
               else "{" ++ newline ++ indent
                        ++ JsString.join ("," ++ newline ++ indent) partial
                        ++ newline ++ stepback ++ "}"
           end
  end.

Fixpoint spaces (n : nat) : string :=
  match n with
  | O => ""
  | S n' => String " " (spaces n')
  end.

(** [JSON.stringify(v, null, space)] for a numeric [space] (at most ten
    spaces are used); [None] is the [undefined] result. *)
Definition stringify (v : JsValue) (space : nat) : option string :=
  serialize (spaces (Nat.min space 10)) "" v.

End JSON.

(** [v.toString()].  It throws a [TypeError] on [undefined] and [null];
    an array joins the strings of its elements with commas ([null] and
    [undefined] elements give the empty string), any other object is
    ["[object Object]"].  The text of the [TypeError] is the engine's. *)
Module ToString.

Fixpoint toStringOr (dflt : string) (v : JsValue) : string :=
  match v with
  | VUndefined => dflt
  | VNull => dflt
  | VBool b => Js.Boolean_toString b
  | VNum n => Js.Number_toString n
  | VStr s => s
  | VArr items => JsString.join "," (map (toStringOr "") items)
  | VObj _ => "[object Object]"
  end.

Definition cannotRead (what prop : string) : Thrown :=
  ErrorObject "TypeError"
    ("Cannot read properties of " ++ what ++ " (reading '" ++ prop ++ "')").

Definition toString (v : JsValue) : Thrown + string :=
  match v with
  | VUndefined => inl (cannotRead "undefined" "toString")
  | VNull => inl (cannotRead "null" "toString")
  | _ => inr (toStringOr "" v)
  end.

End ToString.

(* ------------------------------------------------------------------ *)
(** * The data model ([types.ts])                                      *)
(* ------------------------------------------------------------------ *)

Record Message : Type := {
  text : string;
  isUser : bool;
  timestamp : Z
}.

Record MessageResponse : Type := { payload : JsValue }.

(** How a promise ends: [await] returns the value of a fulfilled promise
    and throws the reason of a rejected one. *)
Inductive Settled (A : Type) : Type :=
| Fulfilled (value : A)
| Rejected (reason : Thrown).
Arguments Fulfilled {A} value.
Arguments Rejected {A} reason.

Inductive AiConfigHelperPlacement := PlaceTop | PlaceBottom | PlaceLeft | PlaceRight.

Record Styles : Type := {
  width : option Z;
  maxHeight : option Z;
  assistantMessageColor : option string;
  userMessageColor : option string;
  userMessageTextColor : option string
}.

(** The props.  An optional prop is an [option]; [onSendMessage] maps the
    message to the settlement of the promise it returns; [onApplyValue]
    returns [None] when the callback returns and [Some e] when it throws
    [e].  The [icon] prop is presentational and left out. *)
Record AiConfigHelperProps : Type := {
  fieldId : string;
  fieldName : string;
  onApplyValue : option (JsValue -> option Thrown);
  placement : option AiConfigHelperPlacement;
  onSendMessage : option (string -> Settled MessageResponse);
  welcomeMessage : option string;
  helpButtonLabel : option string;
  styles : option Styles
}.

(** Destructuring defaults of the parameter list: [placement = "right"],
    [helpButtonLabel = "Get AI assistance"], [styles = {}]. *)
Definition placementOrDefault (p : AiConfigHelperProps) : AiConfigHelperPlacement :=
  match placement p with Some d => d | None => PlaceRight end.

Definition helpButtonLabelOrDefault (p : AiConfigHelperProps) : string :=
  match helpButtonLabel p with Some l => l | None => "Get AI assistance" end.

Definition emptyStyles : Styles :=
  {| width := None; maxHeight := None; assistantMessageColor := None;
     userMessageColor := None; userMessageTextColor := None |}.

Definition stylesOrDefault (p : AiConfigHelperProps) : Styles :=
  match styles p with Some s => s | None => emptyStyles end.

(** [n || d] on an optional number: [undefined] and [0] are falsy. *)
Definition orNumber (o : option Z) (d : Z) : Z :=
  match o with
  | Some n => if (n =? 0)%Z then d else n
  | None => d
  end.

Record ComponentStyles : Type := {
  cs_width : Z;
  cs_maxHeight : Z;
  cs_userMessageColor : string;
  cs_userMessageTextColor : string;
  cs_assistantMessageColor : string
}.

(** [componentStyles]: default styles with overrides. *)
Definition componentStyles (p : AiConfigHelperProps) : ComponentStyles :=
  let styles := stylesOrDefault p in
  {| cs_width := orNumber (width styles) 320;
     cs_maxHeight := orNumber (maxHeight styles) 400;
     cs_userMessageColor := Js.orString (userMessageColor styles) "primary.main";
     cs_userMessageTextColor := Js.orString (userMessageTextColor styles) "white";
     cs_assistantMessageColor := Js.orString (assistantMessageColor styles) "grey.100" |}.

(* ------------------------------------------------------------------ *)
(** * The state of a mounted component and its environment             *)
(* ------------------------------------------------------------------ *)

(** A DOM element, by identity. *)
Definition Element := nat.

(** What has been started and has not run yet: the focus timer of
    [handleOpenChat], and a [handleSendMessage] suspended at its [await],
    on the promise of the custom handler (called with [sent]) or on the
    timer of the mock. *)
Inductive Task : Type :=
| FocusInput (ms : Z)
| AwaitHandler (sent : string) (promise : Settled MessageResponse)
| AwaitTimeout (ms : Z).

(** The four state cells of the component, then the environment: the
    clock read by [new Date()], the pending tasks in the order they were
    started, the lines of [console.log], and the values [onApplyValue]
    was called with. *)
Record World : Type := {
  anchorEl : option Element;
  userInput : string;
  messages : list Message;
  isLoading : bool;
  clock : Z;
  tasks : list Task;
  console : list (string * JsValue);
  applied : list JsValue
}.

(** The state at mount: [useState(null)], [useState("")], [useState([])],
    [useState(false)]. *)
Definition mount (now : Z) : World :=
  {| anchorEl := None; userInput := ""; messages := []; isLoading := false;
     clock := now; tasks := []; console := []; applied := [] |}.

(* ------------------------------------------------------------------ *)
(** * Effects: state updates and exceptions                            *)
(* ------------------------------------------------------------------ *)

(** A computation returns a value or throws; the updates made before a
    [throw] are kept. *)
Definition Eff (A : Type) : Type := World -> (A + Thrown) * World.

Definition ret {A} (a : A) : Eff A := fun w => (inl a, w).

Definition bind {A B} (c : Eff A) (k : A -> Eff B) : Eff B :=
  fun w =>
    match c w with
    | (inl a, w') => k a w'
    | (inr e, w') => (inr e, w')
    end.

Definition throw {A} (e : Thrown) : Eff A := fun w => (inr e, w).

Declare Scope eff_scope.
Delimit Scope eff_scope with eff.
Notation "x <- c ;; k" := (bind c (fun x => k))
  (at level 61, c at next level, right associativity) : eff_scope.
Notation "c ;; k" := (bind c (fun _ => k))
  (at level 61, right associativity) : eff_scope.
Local Open Scope eff_scope.

(** [try { body } catch (error) { handler error }] *)
Definition tryCatch {A} (body : Eff A) (handler : Thrown -> Eff A) : Eff A :=
  fun w =>
    match body w with
    | (inl a, w') => (inl a, w')
    | (inr e, w') => handler e w'
    end.

(** [try { body } finally { fin }]: [fin] runs on both ways out, and the
    outcome of [body] stands unless [fin] throws itself. *)
Definition tryFinally {A} (body : Eff A) (fin : Eff unit) : Eff A :=
  fun w =>
    match body w with
    | (r, w') =>
        match fin w' with
        | (inl _, w'') => (r, w'')
        | (inr e, w'') => (inr e, w'')
        end
    end.

(** The values of the current render. *)
Definition render : Eff World := fun w => (inl w, w).

Definition setAnchorEl (el : option Element) : Eff unit :=
  fun w => (inl tt,
            {| anchorEl := el; userInput := userInput w; messages := messages w;
               isLoading := isLoading w; clock := clock w; tasks := tasks w;
               console := console w; applied := applied w |}).

Definition setUserInput (s : string) : Eff unit :=
  fun w => (inl tt,
            {| anchorEl := anchorEl w; userInput := s; messages := messages w;
               isLoading := isLoading w; clock := clock w; tasks := tasks w;
               console := console w; applied := applied w |}).

(** [setMessages(f)] with an updater function; [setMessages(v)] with a
    value is [setMessages (fun _ => v)]. *)
Definition setMessages (f : list Message -> list Message) : Eff unit :=
  fun w => (inl tt,
            {| anchorEl := anchorEl w; userInput := userInput w;
               messages := f (messages w);
               isLoading := isLoading w; clock := clock w; tasks := tasks w;
               console := console w; applied := applied w |}).

Definition setIsLoading (b : bool) : Eff unit :=
  fun w => (inl tt,
            {| anchorEl := anchorEl w; userInput := userInput w; messages := messages w;
               isLoading := b; clock := clock w; tasks := tasks w;
               console := console w; applied := applied w |}).

(** [new Date()] *)
Definition newDate : Eff Z := fun w => (inl (clock w), w).

(** Starting a timer or suspending on a promise. *)
Definition spawn (t : Task) : Eff unit :=
  fun w => (inl tt,
            {| anchorEl := anchorEl w; userInput := userInput w; messages := messages w;
               isLoading := isLoading w; clock := clock w;
               tasks := (tasks w ++ [t])%list;
               console := console w; applied := applied w |}).

(** [console.log(label, v)] *)
Definition consoleLog (label : string) (v : JsValue) : Eff unit :=
  fun w => (inl tt,
            {| anchorEl := anchorEl w; userInput := userInput w; messages := messages w;
               isLoading := isLoading w; clock := clock w; tasks := tasks w;
               console := (console w ++ [(label, v)])%list; applied := applied w |}).

(** A call of the [onApplyValue] callback. *)
Definition callApply (cb : JsValue -> option Thrown) (v : JsValue) : Eff unit :=
  fun w =>
    let w' := {| anchorEl := anchorEl w; userInput := userInput w; messages := messages w;
                 isLoading := isLoading w; clock := clock w; tasks := tasks w;
                 console := console w; applied := (applied w ++ [v])%list |} in
    match cb v with
    | None => (inl tt, w')
    | Some e => (inr e, w')
    end.

(** [await promise] once the promise has settled. *)
Definition awaited {A} (p : Settled A) : Eff A :=
  match p with
  | Fulfilled a => ret a
  | Rejected e => throw e
  end.

(** [costly.method()] where the receiver computation may throw. *)
Definition liftThrow {A} (r : Thrown + A) : Eff A :=
  match r with
  | inl e => throw e
  | inr a => ret a
  end.

(* ------------------------------------------------------------------ *)
(** * The component ([AiConfigHelper.tsx])                             *)
(* ------------------------------------------------------------------ *)

(** [xs[i]]: [undefined] outside the bounds. *)
Definition at_index {A} (xs : list A) (i : Z) : option A :=
  if (i <? 0)%Z then None else nth_error xs (Z.to_nat i).

Definition dq : string := String JSON.dquote "".

Section Component.

Variable props : AiConfigHelperProps.

(** The platform's [JSON.parse]: [None] when it throws a [SyntaxError]. *)
Variable JSON_parse : string -> option JsValue.

(** Default welcome message *)
Definition defaultWelcomeMessage : string :=
  "Hi there! I'm AiConfigHelper. How can I help you configure the "
    ++ dq ++ fieldName props ++ dq ++ " field?".

Definition welcomeText : string :=
  Js.orString (welcomeMessage props) defaultWelcomeMessage.

Definition handleOpenChat (currentTarget : Element) : Eff unit :=
  r <- render ;;
  setAnchorEl (Some currentTarget) ;;
  (* Add initial welcome message if no messages exist *)
  (if (length (messages r) =? 0)%nat then
     now <- newDate ;;
     setMessages (fun _ =>
       [ {| text := welcomeText; isUser := false; timestamp := now |} ])
   else ret tt) ;;
  (* Focus on input field when chat opens *)
  spawn (FocusInput 100).

Definition handleCloseChat : Eff unit :=
  setAnchorEl None.

Definition handleInputChange (value : string) : Eff unit :=
  setUserInput value.

(** The test that selects the shape of the mock payloads. *)
Definition wantsJson : bool :=
  JsString.includes (JsString.toLowerCase (fieldName props)) "json"
  || JsString.includes (JsString.toLowerCase (fieldName props)) "schema".

Definition schemaPayload : JsValue :=
  VObj [("schema",
         VObj [("type", VStr "object");
               ("properties",
                VObj [("name", VObj [("type", VStr "string")]);
                      ("age", VObj [("type", VStr "number")])])])].

Definition examplePayload : JsValue :=
  VObj [("example", VObj [("name", VStr "John Doe"); ("age", VNum 30)])].

Definition configurationPayload : JsValue :=
  VObj [("configuration",
         VObj [("required", VArr [VStr "name"]);
               ("additionalProperties", VBool false)])].

Definition responses : list MessageResponse :=
  [ {| payload := if wantsJson then schemaPayload
                  else VStr "This is a sample note from AI assistant." |};
    {| payload := if wantsJson then examplePayload
                  else VStr "Another helpful note for your reference." |};
    {| payload := if wantsJson then configurationPayload
                  else VStr "AI-generated content for the notes field." |} ].

(** Default mock API response if no custom handler is provided;
    [random] is the value of [Math.random()]. *)
Definition mockApiResponse (random : Q) : option MessageResponse :=
  at_index responses
    (Qfloor (random * inject_Z (Z.of_nat (length responses)))).

(** The delay of the mock, in milliseconds. *)
Definition mockDelay : Z := 1000.

(** The send button: [disabled={userInput.trim() === "" || isLoading}]. *)
Definition sendDisabled (w : World) : bool :=
  (JsString.trim (userInput w) =? "") || isLoading w.

Definition leadInText : string :=
  "Here's what I suggest for the " ++ dq ++ fieldName props ++ dq ++ " field:".

Definition suggestionText : string :=
  "Would you like to apply this value to the field? Just click on the message.".

(** The text of the payload message:
    [typeof payload === "object" ? JSON.stringify(payload, null, 2)
                                 : payload.toString()].
    [JSON.stringify] is defined on every value whose [typeof] is
    ["object"], so the inner default is never taken. *)
Definition payloadText (v : JsValue) : Thrown + string :=
  if Js.isObject v then
    inr (match JSON.stringify v 2 with Some s => s | None => "" end)
  else ToString.toString v.

(** [`Sorry, I encountered an error: ${error instanceof Error ?
    error.message : "Unknown error"}`] *)
Definition errorText (error : Thrown) : string :=
  "Sorry, I encountered an error: "
    ++ match error with
       | ErrorObject _ message => message
       | ThrownValue _ => "Unknown error"
       end.

Definition responseValue (r : option MessageResponse) : JsValue :=
  match r with
  | Some r => VObj [("payload", payload r)]
  | None => VUndefined
  end.

(** [handleSendMessage] up to its [await]: the guard, the user message,
    the clearing of the input, the loading flag, and the call of the
    handler or the start of the mock's timer. *)
Definition handleSendMessage : Eff unit :=
  r <- render ;;
  if JsString.trim (userInput r) =? "" then ret tt else
  (* Add user message *)
  now <- newDate ;;
  let userMessage :=
    {| text := JsString.trim (userInput r); isUser := true; timestamp := now |} in
  setMessages (fun prev => prev ++ [userMessage])%list ;;
  setUserInput "" ;;
  consoleLog "User query:" (VStr (text userMessage)) ;;
  (* Use custom handler or mock if not provided *)
  setIsLoading true ;;
  match onSendMessage props with
  | Some handler =>
      spawn (AwaitHandler (text userMessage) (handler (text userMessage)))
  | None => spawn (AwaitTimeout mockDelay)
  end.

(** The statements of the [try] block after the [await]. *)
Definition afterResponse (response : option MessageResponse) : Eff unit :=
  consoleLog "AI response:" (responseValue response) ;;
  (* Add AI response message *)
  t1 <- newDate ;;
  setMessages (fun prev =>
    prev ++ [ {| text := leadInText; isUser := false; timestamp := t1 |} ])%list ;;
  (* Add a formatted response showing the payload *)
  txt <- liftThrow
           match response with
           | Some r => payloadText (payload r)
           | None => inl (ToString.cannotRead "undefined" "payload")
           end ;;
  t2 <- newDate ;;
  setMessages (fun prev =>
    prev ++ [ {| text := txt; isUser := false; timestamp := t2 |} ])%list ;;
  (* Add a suggestion to apply the value *)
  t3 <- newDate ;;
  setMessages (fun prev =>
    prev ++ [ {| text := suggestionText; isUser := false; timestamp := t3 |} ])%list.

(** Handle error case *)
Definition onError (error : Thrown) : Eff unit :=
  now <- newDate ;;
  setMessages (fun prev =>
    prev ++ [ {| text := errorText error; isUser := false; timestamp := now |} ])%list.

(** [handleSendMessage] from its [await] on: [awaiting] is the awaited
    step ([await onSendMessage(text)], or the mock after its delay);
    then the rest of the [try], the [catch] and the [finally]. *)
Definition resumeSendMessage (awaiting : Eff (option MessageResponse)) : Eff unit :=
  tryFinally
    (tryCatch (response <- awaiting ;; afterResponse response) onError)
    (setIsLoading false).

Definition handleKeyPress (key : string) (shiftKey : bool) : Eff unit :=
  if (key =? "Enter") && negb shiftKey then
    (* e.preventDefault() *)
    handleSendMessage
  else ret tt.

Definition handleApplyValue (text : string) : Eff unit :=
  match onApplyValue props with
  | None => ret tt
  | Some onApplyValue =>
      tryCatch
        (value <- liftThrow
                    match JSON_parse text with
                    | Some v => inr v
                    | None => inl (ErrorObject "SyntaxError" "Unexpected token")
                    end ;;
         callApply onApplyValue value)
        (* If not JSON, treat as plain text *)
        (fun _ => callApply onApplyValue (VStr text))
  end.

(** [const open = Boolean(anchorEl)] *)
Definition isOpen (w : World) : bool :=
  match anchorEl w with Some _ => true | None => false end.

(** [popoverId] *)
Definition popoverId (w : World) : option string :=
  if isOpen w then Some ("ai-helper-popover-" ++ fieldId props) else None.

End Component.

(* ------------------------------------------------------------------ *)
(** * The events of a mounted component                                *)
(* ------------------------------------------------------------------ *)

(** What the user and the environment can do: click the help button
    ([onClick={handleOpenChat}]), close the popover ([onClose] and the
    close button), type ([onChange]), press a key in the text field
    ([onKeyDown]), click the send button, click a message bubble, let
    time pass, and let the [i]-th pending task run ([random] is what
    [Math.random()] returns to it). *)
Inductive Event : Type :=
| ClickHelp (currentTarget : Element)
| ClosePopover
| ChangeInput (value : string)
| KeyDown (key : string) (shiftKey : bool)
| ClickSend
| ClickMessage (i : nat)
| Elapse (dt : Z)
| RunTask (i : nat) (random : Q).

Fixpoint removeNth {A} (i : nat) (xs : list A) : list A :=
  match i, xs with
  | _, [] => []
  | O, _ :: xs' => xs'
  | S i', x :: xs' => x :: removeNth i' xs'
  end.

Definition takeTask (i : nat) : Eff (option Task) :=
  fun w =>
    (inl (nth_error (tasks w) i),
     {| anchorEl := anchorEl w; userInput := userInput w; messages := messages w;
        isLoading := isLoading w; clock := clock w;
        tasks := removeNth i (tasks w);
        console := console w; applied := applied w |}).

Definition elapse (dt : Z) : Eff unit :=
  fun w =>
    (inl tt,
     {| anchorEl := anchorEl w; userInput := userInput w; messages := messages w;
        isLoading := isLoading w; clock := (clock w + Z.max 0 dt)%Z;
        tasks := tasks w; console := console w; applied := applied w |}).

Section Events.

Variable props : AiConfigHelperProps.
Variable JSON_parse : string -> option JsValue.

(** The continuation of a pending task. *)
Definition runTask (t : Task) (random : Q) : Eff unit :=
  match t with
  | FocusInput _ => ret tt
  | AwaitHandler _ promise =>
      resumeSendMessage props (response <- awaited promise ;; ret (Some response))
  | AwaitTimeout _ =>
      resumeSendMessage props (ret (mockApiResponse props random))
  end.

(** The handler an event reaches.  The text field, the send button, the
    close button and the bubbles are children of the popover and exist
    only while it is open; a disabled button does not fire [onClick];
    a bubble calls [handleApplyValue] only when [!message.isUser]. *)
Definition dispatch (ev : Event) : Eff unit :=
  r <- render ;;
  match ev with
  | ClickHelp el => handleOpenChat props el
  | Elapse dt => elapse dt
  | RunTask i random =>
      t <- takeTask i ;;
      match t with
      | Some t => runTask t random
      | None => ret tt
      end
  | _ =>
      if negb (isOpen r) then ret tt else
      match ev with
      | ClosePopover => handleCloseChat
      | ChangeInput value => handleInputChange value
      | KeyDown key shiftKey => handleKeyPress props key shiftKey
      | ClickSend =>
          if sendDisabled r then ret tt else handleSendMessage props
      | ClickMessage i =>
          match nth_error (messages r) i with
          | Some message =>
              if negb (isUser message)
              then handleApplyValue props JSON_parse (text message)
              else ret tt
          | None => ret tt
          end
      | _ => ret tt
      end
  end.

Definition step (ev : Event) (w : World) : World := snd (dispatch ev w).

(** A session: the events in order, from a given state. *)
Fixpoint run (evs : list Event) (w : World) : World :=
  match evs with
  | [] => w
  | ev :: evs' => run evs' (step ev w)
  end.

End Events.

(* ------------------------------------------------------------------ *)
(** * A reference parser for the worked examples                       *)
(* ------------------------------------------------------------------ *)

(** A parser of the JSON texts whose numbers are non-zero-signed integers
    without fraction or exponent and whose [\u] escapes stay below 256.
    It stands for [JSON.parse] in the worked examples only; the theorems
    hold for every parser. *)
Module RefParser.

Definition isWs (c : ascii) : bool :=
  let n := nat_of_ascii c in
  (n =? 32)%nat || (n =? 9)%nat || (n =? 10)%nat || (n =? 13)%nat.

Fixpoint skipWs (s : string) : string :=
  match s with
  | String c s' => if isWs c then skipWs s' else s
  | EmptyString => EmptyString
  end.

Definition digit (c : ascii) : option Z :=
  let n := nat_of_ascii c in
  if (48 <=? n)%nat && (n <=? 57)%nat then Some (Z.of_nat (n - 48)) else None.

Definition hex (c : ascii) : option nat :=
  let n := nat_of_ascii c in
  if (48 <=? n)%nat && (n <=? 57)%nat then Some (n - 48)%nat
  else if (97 <=? n)%nat && (n <=? 102)%nat then Some (n - 87)%nat
  else if (65 <=? n)%nat && (n <=? 70)%nat then Some (n - 55)%nat
  else None.

Fixpoint digits (acc : Z) (s : string) : Z * string :=
  match s with
  | String c s' =>
      match digit c with
      | Some d => digits (acc * 10 + d)%Z s'
      | None => (acc, s)
      end
  | EmptyString => (acc, s)
  end.

(** After an integer no fraction and no exponent may follow. *)
Definition integerEnds (s : string) : bool :=
  match s with
  | String c _ =>
      negb (Ascii.eqb c "." || Ascii.eqb c "e" || Ascii.eqb c "E")
  | EmptyString => true
  end.

Definition natural (s : string) : option (Z * string) :=
  match s with
  | String c s' =>
      match digit c with
      | Some 0%Z => if integerEnds s' then Some (0%Z, s') else None
      | Some d =>
          let '(n, rest) := digits d s' in
          if integerEnds rest then Some (n, rest) else None
      | None => None
      end
  | EmptyString => None
  end.

Definition number (s : string) : option (Z * string) :=
  match s with
  | String "-" s' =>
      match natural s' with
      | Some (0%Z, _) => None
      | Some (n, rest) => Some ((- n)%Z, rest)
      | None => None
      end
  | _ => natural s
  end.

(** The characters of a string literal after its opening quote. *)
Fixpoint chars (s : string) : option (string * string) :=
  match s with
  | EmptyString => None
  | String c s' =>
      if Ascii.eqb c JSON.dquote then Some ("", s')
      else if (nat_of_ascii c <? 32)%nat then None
      else if Ascii.eqb c "\" then
        match s' with
        | String e s'' =>
            let simple (x : ascii) :=
              match chars s'' with
              | Some (t, rest) => Some (String x t, rest)
              | None => None
              end in
            if Ascii.eqb e JSON.dquote then simple JSON.dquote
            else if Ascii.eqb e "\" then simple "\"%char
            else if Ascii.eqb e "/" then simple "/"%char
            else if Ascii.eqb e "b" then simple (ascii_of_nat 8)
            else if Ascii.eqb e "f" then simple (ascii_of_nat 12)
            else if Ascii.eqb e "n" then simple (ascii_of_nat 10)
            else if Ascii.eqb e "r" then simple (ascii_of_nat 13)
            else if Ascii.eqb e "t" then simple (ascii_of_nat 9)
            else if Ascii.eqb e "u" then
              match s'' with
              | String h1 (String h2 (String h3 (String h4 s3))) =>
                  match hex h1, hex h2, hex h3, hex h4, chars s3 with
                  | Some 0%nat, Some 0%nat, Some a, Some b, Some (t, rest) =>
                      Some (String (ascii_of_nat (16 * a + b)) t, rest)
                  | _, _, _, _, _ => None
                  end
              | _ => None
              end
            else None
        | EmptyString => None
        end
      else
        match chars s' with
        | Some (t, rest) => Some (String c t, rest)
        | None => None
        end
  end.

(** One value, then what follows it.  [fuel] bounds the nesting and
    the number of members read. *)
Fixpoint value (fuel : nat) (s : string) : option (JsValue * string) :=
  match fuel with
  | O => None
  | S fuel' =>
      let elements :=
        fix elements (n : nat) (s : string) : option (list JsValue * string) :=
          match n with
          | O => None
          | S n' =>
              match value fuel' (skipWs s) with
              | Some (v, rest) =>
                  match skipWs rest with
                  | String "," rest' =>
                      match elements n' rest' with
                      | Some (vs, rest'') => Some (v :: vs, rest'')
                      | None => None
                      end
                  | String "]" rest' => Some ([v], rest')
                  | _ => None
                  end
              | None => None
              end
          end in
      let members :=
        fix members (n : nat) (s : string)
          : option (list (string * JsValue) * string) :=
          match n with
          | O => None
          | S n' =>
              match skipWs s with
              | String q s1 =>
                  if Ascii.eqb q JSON.dquote then
                    match chars s1 with
                    | Some (k, s2) =>
                        match skipWs s2 with
                        | String ":" s3 =>
                            match value fuel' (skipWs s3) with
                            | Some (v, rest) =>
                                match skipWs rest with
                                | String "," rest' =>
                                    match members n' rest' with
                                    | Some (kvs, rest'') => Some ((k, v) :: kvs, rest'')
                                    | None => None
                                    end
                                | String "}" rest' => Some ([(k, v)], rest')
                                | _ => None
                                end
                            | None => None
                            end
                        | _ => None
                        end
                    | None => None
                    end
                  else None
              | EmptyString => None
              end
          end in
      match s with
      | String "n" (String "u" (String "l" (String "l" rest))) => Some (VNull, rest)
      | String "t" (String "r" (String "u" (String "e" rest))) => Some (VBool true, rest)
      | String "f" (String "a" (String "l" (String "s" (String "e" rest)))) =>
          Some (VBool false, rest)
      | String "[" rest =>
          match skipWs rest with
          | String "]" rest' => Some (VArr [], rest')
          | _ =>
              match elements (String.length rest) rest with
              | Some (vs, rest') => Some (VArr vs, rest')
              | None => None
              end
          end
      | String "{" rest =>
          match skipWs rest with
          | String "}" rest' => Some (VObj [], rest')
          | _ =>
              match members (String.length rest) rest with
              | Some (kvs, rest') => Some (VObj kvs, rest')
              | None => None
              end
          end
      | String c rest =>
          if Ascii.eqb c JSON.dquote then
            match chars rest with
            | Some (t, rest') => Some (VStr t, rest')
            | None => None
            end
          else
            match number s with
            | Some (n, rest') => Some (VNum n, rest')
            | None => None
            end
      | EmptyString => None
      end
  end.

(** The whole text is one value between optional white space. *)
Definition parse (s : string) : option JsValue :=
  match value (S (String.length s)) (skipWs s) with
  | Some (v, rest) =>
      match skipWs rest with
      | EmptyString => Some v
      | _ => None
      end
  | None => None
  end.

End RefParser.

(* ------------------------------------------------------------------ *)
(** * Vocabulary of the statements                                     *)
(* ------------------------------------------------------------------ *)

(** The task [handleSendMessage] leaves pending for the text it sends. *)
Definition dispatchOf (props : AiConfigHelperProps) (sent : string) : Task :=
  match onSendMessage props with
  | Some handler => AwaitHandler sent (handler sent)
  | None => AwaitTimeout 1000
  end.

Definition userMessageOf (w : World) : Message :=
  {| text := JsString.trim (userInput w); isUser := true; timestamp := clock w |}.

Definition assistantMessage (txt : string) (w : World) : Message :=
  {| text := txt; isUser := false; timestamp := clock w |}.

(** The state after a settlement that appended [added] and logged the
    response. *)
Definition settledWorld (w : World) (added : list Message)
           (logged : list (string * JsValue)) : World :=
  {| anchorEl := anchorEl w;
     userInput := userInput w;
     messages := messages w ++ added;
     isLoading := false;
     clock := clock w;
     tasks := tasks w;
     console := console w ++ logged;
     applied := applied w |}.

(** The tasks that are a suspended [handleSendMessage]. *)
Definition isDispatch (t : Task) : bool :=
  match t with
  | FocusInput _ => false
  | AwaitHandler _ _ => true
  | AwaitTimeout _ => true
  end.

(** The events that open or close the panel. *)
Definition opensOrCloses (ev : Event) : bool :=
  match ev with
  | ClickHelp _ | ClosePopover => true
  | _ => false
  end.

(** How the text of the payload message relates to the payload: the
    pretty-printed JSON text (two spaces of indentation) of a structured
    value, the string itself, or the string form of a number or a
    boolean. *)
Definition rendersAs (v : JsValue) (txt : string) : Prop :=
  match v with
  | VUndefined => False
  | VStr s => txt = s
  | VNum n => txt = Js.Number_toString n
  | VBool b => txt = Js.Boolean_toString b
  | VNull | VArr _ | VObj _ => JSON.stringify v 2 = Some txt
  end.

(** Computations that leave the message sequence as it is. *)
Definition keepsMessages {A} (c : Eff A) : Prop :=
  forall w, messages (snd (c w)) = messages w.

(* ------------------------------------------------------------------ *)
(** * Configurations and states of the worked examples                 *)
(* ------------------------------------------------------------------ *)

Module Examples.

(** No custom handler, field name "JSON Schema" (as in the example
    application). *)
Definition schemaField : AiConfigHelperProps :=
  {| fieldId := "schema"; fieldName := "JSON Schema";
     onApplyValue := Some (fun _ => None);
     placement := None; onSendMessage := None; welcomeMessage := None;
     helpButtonLabel := None; styles := None |}.

(** A custom handler that answers with a fixed text. *)
Definition customApi (message : string) : Settled MessageResponse :=
  Fulfilled {| payload := VStr "This is a custom response from the API handler." |}.

Definition customField : AiConfigHelperProps :=
  {| fieldId := "custom"; fieldName := "Custom Field";
     onApplyValue := Some (fun _ => None);
     placement := None; onSendMessage := Some customApi;
     welcomeMessage := Some "Hello! This is a custom welcome message.";
     helpButtonLabel := None; styles := None |}.

(** A custom handler whose promise is rejected with an [Error]. *)
Definition failingApi (message : string) : Settled MessageResponse :=
  Rejected (ErrorObject "Error" "Network down").

Definition failingField : AiConfigHelperProps :=
  {| fieldId := "custom"; fieldName := "Custom Field";
     onApplyValue := None;
     placement := None; onSendMessage := Some failingApi;
     welcomeMessage := None; helpButtonLabel := None; styles := None |}.

(** An open panel with the given text typed. *)
Definition typed (input : string) : World :=
  {| anchorEl := Some 1%nat; userInput := input; messages := [];
     isLoading := false; clock := 0; tasks := []; console := []; applied := [] |}.

(** The state after: open, type "help me", Enter, type "again". *)
Definition busyAgain : World :=
  run customField RefParser.parse
    [ClickHelp 1%nat; ChangeInput "help me"; KeyDown "Enter" false;
     ChangeInput "again"]
    (mount 0).

End Examples.

(* ------------------------------------------------------------------ *)
(** * The placement of the popover ([getPopoverPosition])              *)
(* ------------------------------------------------------------------ *)

Inductive Vertical := VerticalTop | VerticalCenter | VerticalBottom.
Inductive Horizontal := HorizontalLeft | HorizontalCenter | HorizontalRight.

Record Origin : Type := { vertical : Vertical; horizontal : Horizontal }.

Record PopoverPosition : Type := {
  anchorOrigin : Origin;
  transformOrigin : Origin
}.

(** Compute popover position based on placement.  The [default:] branch
    of the [switch] returns what the ["right"] branch returns; with the
    four values of the type it is not reached. *)
Definition getPopoverPosition (props : AiConfigHelperProps) : PopoverPosition :=
  match placementOrDefault props with
  | PlaceTop =>
      {| anchorOrigin := {| vertical := VerticalTop; horizontal := HorizontalCenter |};
         transformOrigin := {| vertical := VerticalBottom; horizontal := HorizontalCenter |} |}
  | PlaceBottom =>
      {| anchorOrigin := {| vertical := VerticalBottom; horizontal := HorizontalCenter |};
         transformOrigin := {| vertical := VerticalTop; horizontal := HorizontalCenter |} |}
  | PlaceLeft =>
      {| anchorOrigin := {| vertical := VerticalCenter; horizontal := HorizontalLeft |};
         transformOrigin := {| vertical := VerticalCenter; horizontal := HorizontalRight |} |}
  | PlaceRight =>
      {| anchorOrigin := {| vertical := VerticalCenter; horizontal := HorizontalRight |};
         transformOrigin := {| vertical := VerticalCenter; horizontal := HorizontalLeft |} |}
  end.

(** The point of a box opposite to a given one, through the centre. *)
Definition opposite (o : Origin) : Origin :=
  {| vertical := match vertical o with
                 | VerticalTop => VerticalBottom
                 | VerticalCenter => VerticalCenter
                 | VerticalBottom => VerticalTop
                 end;
     horizontal := match horizontal o with
                   | HorizontalLeft => HorizontalRight
                   | HorizontalCenter => HorizontalCenter
                   | HorizontalRight => HorizontalLeft
                   end |}.

(** The middle of a side of a box, if the point is one. *)
Definition sideOf (o : Origin) : option AiConfigHelperPlacement :=
  match vertical o, horizontal o with
  | VerticalTop, HorizontalCenter => Some PlaceTop
  | VerticalBottom, HorizontalCenter => Some PlaceBottom
  | VerticalCenter, HorizontalLeft => Some PlaceLeft
  | VerticalCenter, HorizontalRight => Some PlaceRight
  | _, _ => None
  end.

(* ------------------------------------------------------------------ *)
(** * The example application ([example/src/App.tsx])                  *)
(* ------------------------------------------------------------------ *)

(** [SimpleJsonEditor]: the two state cells of the editor, and the
    values its [onChange] prop was called with. *)
Module SimpleJsonEditor.

Record State : Type := {
  error : option string;
  textValue : string;
  changes : list JsValue
}.

(** [useState(null)] and [useState(JSON.stringify(value, null, 2))]; the
    [value] prop is an object, for which [JSON.stringify] is defined. *)
Definition init (value : JsValue) : State :=
  {| error := None;
     textValue := match JSON.stringify value 2 with Some s => s | None => "" end;
     changes := [] |}.

Section Editor.

Variable JSON_parse : string -> option JsValue.

(** The [onChange] prop: [None] when it returns, [Some e] when it
    throws [e]. *)
Variable onChange : JsValue -> option Thrown.

Definition handleChange (newText : string) (st : State) : State :=
  (* setTextValue(newText) *)
  let st1 := {| error := error st; textValue := newText; changes := changes st |} in
  match JSON_parse newText with
  | Some newValue =>
      (* onChange(newValue) *)
      let st2 := {| error := error st1; textValue := textValue st1;
                    changes := (changes st1 ++ [newValue])%list |} in
      match onChange newValue with
      | None =>
          (* setError(null) *)
          {| error := None; textValue := textValue st2; changes := changes st2 |}
      | Some _ =>
          {| error := Some "Invalid JSON"; textValue := textValue st2;
             changes := changes st2 |}
      end
  | None =>
      (* catch: setError("Invalid JSON") *)
      {| error := Some "Invalid JSON"; textValue := textValue st1;
         changes := changes st1 |}
  end.

(** The edits of a session, in order. *)
Fixpoint edits (texts : list string) (st : State) : State :=
  match texts with
  | [] => st
  | t :: texts' => edits texts' (handleChange t st)
  end.

End Editor.

End SimpleJsonEditor.

Module App.

(** Custom API handler example.  The promise is fulfilled after the
    simulated delay of 1000 ms; the line the handler writes to the
    console and the delay are the environment's. *)
Definition handleCustomApiRequest (message : string) : Settled MessageResponse :=
  if JsString.includes (JsString.toLowerCase message) "color" then
    Fulfilled {| payload := VStr "A vibrant shade of purple that complements the design." |}
  else if JsString.includes (JsString.toLowerCase message) "size" then
    Fulfilled {| payload := VStr "Medium size (fits most design systems)." |}
  else
    Fulfilled {| payload := VStr "This is a custom response from the API handler." |}.

(** The "Custom Field" helper of the application; [onApplyValue] is a
    state setter, which returns. *)
Definition customFieldProps : AiConfigHelperProps :=
  {| fieldId := "custom-field"; fieldName := "Custom Field";
     onApplyValue := Some (fun _ => None);
     placement := None;
     onSendMessage := Some handleCustomApiRequest;
     welcomeMessage :=
       Some "Hello! This is a custom welcome message. Try asking about 'color' or 'size'.";
     helpButtonLabel := None; styles := None |}.

End App.

(* ------------------------------------------------------------------ *)
(** * Vocabulary of the further statements                             *)
(* ------------------------------------------------------------------ *)

(** The state in which a pending task runs: the task is off the list. *)
Definition withoutTask (i : nat) (w : World) : World :=
  {| anchorEl := anchorEl w; userInput := userInput w; messages := messages w;
     isLoading := isLoading w; clock := clock w;
     tasks := removeNth i (tasks w);
     console := console w; applied := applied w |}.

(** The state after [onApplyValue] was called with [more]. *)
Definition withApplied (w : World) (more : list JsValue) : World :=
  {| anchorEl := anchorEl w; userInput := userInput w; messages := messages w;
     isLoading := isLoading w; clock := clock w; tasks := tasks w;
     console := console w; applied := applied w ++ more |}.

(** A user message as [handleSendMessage] makes them: not empty, and
    trimmed. *)
Definition wellFormedUserMessage (m : Message) : Prop :=
  isUser m = true -> text m <> "" /\ JsString.trim (text m) = text m.

(** The first message, if there is one, is the welcome message; while
    there is none, the panel is closed and nothing is in flight. *)
Definition welcomeFirst (props : AiConfigHelperProps) (w : World) : Prop :=
  match messages w with
  | [] => anchorEl w = None /\ filter isDispatch (tasks w) = []
  | m :: _ => text m = welcomeText props /\ isUser m = false
  end.

(** The number of suspended [handleSendMessage] calls. *)
Definition inFlight (w : World) : nat :=
  length (filter isDispatch (tasks w)).

(** Enter without Shift. *)
Definition isEnter (ev : Event) : bool :=
  match ev with
  | KeyDown key shiftKey => (key =? "Enter") && negb shiftKey
  | _ => false
  end.

(** How one event moves the loading flag and the number of dispatches in
    flight: not at all, or a dispatch starts ([viaEnter] tells whether the
    Enter key did it), or one settles. *)
Inductive FlightChange (viaEnter : bool) (w w' : World) : Prop :=
| FlightSame :
    isLoading w' = isLoading w -> inFlight w' = inFlight w ->
    FlightChange viaEnter w w'
| FlightStarted :
    isLoading w' = true -> inFlight w' = S (inFlight w) ->
    viaEnter = true \/ isLoading w = false ->
    FlightChange viaEnter w w'
| FlightSettled :
    isLoading w' = false -> inFlight w = S (inFlight w') ->
    FlightChange viaEnter w w'.

Definition isClickMessage (ev : Event) : bool :=
  match ev with
  | ClickMessage _ => true
  | _ => false
  end.

(** What [handleApplyValue] passes to the callback first. *)
Definition appliedValue (JSON_parse : string -> option JsValue) (txt : string)
  : JsValue :=
  match JSON_parse txt with
  | Some v => v
  | None => VStr txt
  end.

(* ------------------------------------------------------------------ *)
(** * Facts about the string methods                                   *)
(* ------------------------------------------------------------------ *)

Section StringFacts.

Import JsString.

Lemma trimStart_empty_iff (s : string) :
  trimStart s = "" <-> allWhiteSpace s = true.
Proof.
  induction s as [|c s IH]; simpl.
  - split; reflexivity.
  - destruct (isWhiteSpace c); simpl.
    + exact IH.
    + split; discriminate.
Qed.

Lemma trimEnd_empty_iff (s : string) :
  trimEnd s = "" <-> allWhiteSpace s = true.
Proof.
  induction s as [|c s IH]; simpl.
  - split; reflexivity.
  - destruct (trimEnd s) as [|d t] eqn:E.
    + destruct (isWhiteSpace c); simpl.
      * split; intros _; [apply IH|]; reflexivity.
      * split; discriminate.
    + split; [discriminate|].
      intros H. apply andb_true_iff in H as [_ H].
      apply IH in H. discriminate.
Qed.

Lemma allWhiteSpace_trimStart (s : string) :
  allWhiteSpace (trimStart s) = allWhiteSpace s.
Proof.
  induction s as [|c s IH]; simpl; [reflexivity|].
  destruct (isWhiteSpace c) eqn:E; simpl; [exact IH|].
  rewrite E. reflexivity.
Qed.

(** [s.trim() === ""] exactly when [s] is blank: empty or made of white
    space only. *)
Lemma trim_empty_iff (s : string) :
  trim s = "" <-> allWhiteSpace s = true.
Proof.
  unfold trim. rewrite trimEnd_empty_iff, allWhiteSpace_trimStart. tauto.
Qed.

Lemma startsWith_spec (s p : string) :
  startsWith s p = true <-> exists post, s = p ++ post.
Proof.
  revert s. induction p as [|b p IH]; intros s; simpl.
  - split; [intros _; exists s; reflexivity | reflexivity].
  - destruct s as [|a s].
    + split; [discriminate | intros [post H]; discriminate].
    + rewrite andb_true_iff, Ascii.eqb_eq, IH. split.
      * intros [-> [post ->]]. exists post. reflexivity.
      * intros [post H]. injection H as -> ->. split; [reflexivity|].
        exists post. reflexivity.
Qed.

(** [s.includes(sub)] holds exactly when [sub] occurs in [s]. *)
Lemma includes_spec (s sub : string) :
  includes s sub = true <-> exists pre post, s = pre ++ sub ++ post.
Proof.
  induction s as [|a s IH].
  - simpl. rewrite orb_false_r, startsWith_spec. split.
    + intros [post H]. exists "", post. exact H.
    + intros [pre [post H]]. destruct pre as [|c pre]; [|discriminate].
      exists post. exact H.
  - cbn [includes]. rewrite orb_true_iff, startsWith_spec, IH. split.
    + intros [[post H] | [pre [post H]]].
      * exists "", post. exact H.
      * exists (String a pre), post. simpl. rewrite H. reflexivity.
    + intros [pre [post H]]. destruct pre as [|c pre].
      * left. exists post. exact H.
      * right. simpl in H. injection H as _ H. exists pre, post. exact H.
Qed.

End StringFacts.

(* ------------------------------------------------------------------ *)
(** * What each handler does to the state                              *)
(* ------------------------------------------------------------------ *)

Section HandlerFacts.

Variable props : AiConfigHelperProps.

Lemma handleSendMessage_blank (w : World) :
  JsString.trim (userInput w) = "" ->
  handleSendMessage props w = (inl tt, w).
Proof.
  intros H. unfold handleSendMessage, bind, render.
  rewrite H. reflexivity.
Qed.

Lemma handleSendMessage_nonblank (w : World) :
  JsString.trim (userInput w) <> "" ->
  handleSendMessage props w =
  (inl tt,
   {| anchorEl := anchorEl w;
      userInput := "";
      messages := messages w ++ [userMessageOf w];
      isLoading := true;
      clock := clock w;
      tasks := tasks w ++ [dispatchOf props (JsString.trim (userInput w))];
      console := console w ++ [("User query:", VStr (JsString.trim (userInput w)))];
      applied := applied w |}).
Proof.
  intros H. apply String.eqb_neq in H.
  unfold handleSendMessage, bind, render. rewrite H.
  unfold dispatchOf, userMessageOf.
  destruct (onSendMessage props); reflexivity.
Qed.

Lemma resume_ok (response : MessageResponse) (txt : string) (w : World) :
  payloadText (payload response) = inr txt ->
  resumeSendMessage props (ret (Some response)) w =
  (inl tt,
   settledWorld w
     [assistantMessage (leadInText props) w;
      assistantMessage txt w;
      assistantMessage suggestionText w]
     [("AI response:", VObj [("payload", payload response)])]).
Proof.
  intros H.
  unfold resumeSendMessage, tryFinally, tryCatch, afterResponse, bind, ret,
    liftThrow, consoleLog, newDate, setMessages, setIsLoading, settledWorld,
    assistantMessage.
  cbn. rewrite H. cbn. rewrite <- !app_assoc. reflexivity.
Qed.

Lemma resume_payload_throws (response : MessageResponse) (e : Thrown) (w : World) :
  payloadText (payload response) = inl e ->
  resumeSendMessage props (ret (Some response)) w =
  (inl tt,
   settledWorld w
     [assistantMessage (leadInText props) w;
      assistantMessage (errorText e) w]
     [("AI response:", VObj [("payload", payload response)])]).
Proof.
  intros H.
  unfold resumeSendMessage, tryFinally, tryCatch, afterResponse, onError, bind,
    ret, liftThrow, throw, consoleLog, newDate, setMessages, setIsLoading,
    settledWorld, assistantMessage.
  cbn. rewrite H. cbn. rewrite <- !app_assoc. reflexivity.
Qed.

Lemma resume_undefined_response (w : World) :
  resumeSendMessage props (ret None) w =
  (inl tt,
   settledWorld w
     [assistantMessage (leadInText props) w;
      assistantMessage
        (errorText (ToString.cannotRead "undefined" "payload")) w]
     [("AI response:", VUndefined)]).
Proof.
  unfold resumeSendMessage, tryFinally, tryCatch, afterResponse, onError, bind,
    ret, liftThrow, throw, consoleLog, newDate, setMessages, setIsLoading,
    settledWorld, assistantMessage.
  cbn. rewrite <- !app_assoc. reflexivity.
Qed.

Lemma resume_rejected (e : Thrown) (w : World) :
  resumeSendMessage props (response <- awaited (Rejected e) ;; ret (Some response)) w =
  (inl tt, settledWorld w [assistantMessage (errorText e) w] []).
Proof.
  unfold resumeSendMessage, tryFinally, tryCatch, onError, bind, awaited, throw,
    newDate, setMessages, setIsLoading, settledWorld, assistantMessage.
  cbn. rewrite app_nil_r. reflexivity.
Qed.

Lemma resume_fulfilled_eq (response : MessageResponse) (w : World) :
  resumeSendMessage props (x <- awaited (Fulfilled response) ;; ret (Some x)) w =
  resumeSendMessage props (ret (Some response)) w.
Proof. reflexivity. Qed.

(** [typeof v === "object"] implies that [JSON.stringify] is defined. *)
Lemma stringify_object (v : JsValue) (space : nat) :
  Js.isObject v = true -> exists s, JSON.stringify v space = Some s.
Proof.
  destruct v; cbn; try discriminate; intros _; eexists; reflexivity.
Qed.

Lemma payloadText_undefined :
  payloadText VUndefined = inl (ToString.cannotRead "undefined" "toString").
Proof. reflexivity. Qed.

End HandlerFacts.

(* ------------------------------------------------------------------ *)
(** * Running the task a submit has left pending                       *)
(* ------------------------------------------------------------------ *)

Lemma nth_error_snoc {A} (xs : list A) (x : A) :
  nth_error (xs ++ [x]) (length xs) = Some x.
Proof. induction xs as [|y xs IH]; simpl; [reflexivity | exact IH]. Qed.

Lemma removeNth_snoc {A} (xs : list A) (x : A) :
  removeNth (length xs) (xs ++ [x]) = xs.
Proof. induction xs as [|y xs IH]; simpl; [reflexivity | now rewrite IH]. Qed.

Section Sessions.

Variable props : AiConfigHelperProps.
Variable JSON_parse : string -> option JsValue.

(** Pressing Enter (without Shift) in the open panel is
    [handleSendMessage]; there is no test of [isLoading] on this way. *)
Lemma enter_is_handleSendMessage (w : World) :
  isOpen w = true ->
  dispatch props JSON_parse (KeyDown "Enter" false) w = handleSendMessage props w.
Proof.
  intros H. unfold dispatch, bind, render. rewrite H. reflexivity.
Qed.

(** The send button does nothing while it is disabled. *)
Lemma click_send_disabled (w : World) :
  sendDisabled w = true ->
  dispatch props JSON_parse ClickSend w = (inl tt, w).
Proof.
  intros H. unfold dispatch, bind, render. rewrite H.
  destruct (isOpen w); reflexivity.
Qed.

Lemma click_send_enabled (w : World) :
  isOpen w = true -> sendDisabled w = false ->
  dispatch props JSON_parse ClickSend w = handleSendMessage props w.
Proof.
  intros Ho H. unfold dispatch, bind, render. rewrite H, Ho. reflexivity.
Qed.

(** Running the task that was started last. *)
Lemma run_last_task (w : World) (t : Task) (random : Q) (ts : list Task) :
  tasks w = (ts ++ [t])%list ->
  dispatch props JSON_parse (RunTask (length ts) random) w =
  runTask props t random
    {| anchorEl := anchorEl w; userInput := userInput w; messages := messages w;
       isLoading := isLoading w; clock := clock w; tasks := ts;
       console := console w; applied := applied w |}.
Proof.
  intros H. unfold dispatch, bind, render, takeTask.
  rewrite H, nth_error_snoc, removeNth_snoc. reflexivity.
Qed.

End Sessions.

(* ------------------------------------------------------------------ *)
(** * Submitting                                                       *)
(* ------------------------------------------------------------------ *)

(** C1, evaluated on the code.  With a dispatch in flight ([isLoading] is
    true) and "again" typed, the send button is disabled and a click on it
    changes nothing, but the Enter key reaches [handleSendMessage], which
    does not test [isLoading]: a second user message is appended and the
    handler is called a second time while the first call is pending. *)
Theorem enter_while_busy_dispatches_again :
  let w := Examples.busyAgain in
  let w' := step Examples.customField RefParser.parse (KeyDown "Enter" false) w in
  isLoading w = true
  /\ tasks w = [FocusInput 100; AwaitHandler "help me" (Examples.customApi "help me")]
  /\ step Examples.customField RefParser.parse ClickSend w = w
  /\ messages w' = (messages w ++ [ {| text := "again"; isUser := true; timestamp := 0 |} ])%list
  /\ tasks w' = (tasks w ++ [AwaitHandler "again" (Examples.customApi "again")])%list.
Proof. cbv. repeat split. Qed.

(** Whatever the value of [isLoading], [handleSendMessage] submits a
    non-blank input. *)
Lemma handleSendMessage_while_loading (props : AiConfigHelperProps) (w : World) :
  isLoading w = true ->
  JsString.trim (userInput w) <> "" ->
  messages (snd (handleSendMessage props w))
  = (messages w ++ [userMessageOf w])%list
  /\ tasks (snd (handleSendMessage props w))
     = (tasks w ++ [dispatchOf props (JsString.trim (userInput w))])%list.
Proof.
  intros _ H. rewrite (handleSendMessage_nonblank props w H). split; reflexivity.
Qed.

Lemma payloadText_rendersAs (v : JsValue) :
  v <> VUndefined -> exists txt, payloadText v = inr txt /\ rendersAs v txt.
Proof.
  intros H. destruct v; try congruence; cbn; eexists; split; reflexivity.
Qed.

(** C2.  For an input that is not blank, [handleSendMessage] appends the
    user message (the trimmed text, [isUser] true) before it suspends: the
    loading flag is up and the dispatch is pending.  When the promise of
    the handler is then fulfilled with a response whose payload is defined,
    the continuation appends, to whatever the messages are at that time,
    exactly three assistant messages in this order: the lead-in with the
    field name, the rendering of the payload, and the invitation to
    click. *)
Theorem submit_appends_user_then_three_replies
    (props : AiConfigHelperProps) (w : World)
    (response : MessageResponse) (sent : string) (random : Q) (w2 : World) :
  JsString.trim (userInput w) <> "" ->
  payload response <> VUndefined ->
  let w1 := snd (handleSendMessage props w) in
  let w3 := snd (runTask props (AwaitHandler sent (Fulfilled response)) random w2) in
  (messages w1
   = (messages w ++ [ {| text := JsString.trim (userInput w); isUser := true;
                         timestamp := clock w |} ])%list
   /\ isLoading w1 = true
   /\ tasks w1 = (tasks w ++ [dispatchOf props (JsString.trim (userInput w))])%list)
  /\ exists txt,
      rendersAs (payload response) txt
      /\ messages w3
         = (messages w2
            ++ [ {| text := "Here's what I suggest for the " ++ dq ++ fieldName props
                            ++ dq ++ " field:";
                    isUser := false; timestamp := clock w2 |};
                 {| text := txt; isUser := false; timestamp := clock w2 |};
                 {| text := "Would you like to apply this value to the field? "
                            ++ "Just click on the message.";
                    isUser := false; timestamp := clock w2 |} ])%list.
Proof.
  intros Hin Hdef w1 w3. split.
  - subst w1. rewrite (handleSendMessage_nonblank props w Hin).
    repeat split.
  - destruct (payloadText_rendersAs (payload response) Hdef) as [txt [Htxt Hr]].
    exists txt. split; [exact Hr|].
    subst w3. cbn [runTask]. rewrite resume_fulfilled_eq.
    rewrite (resume_ok props response txt w2 Htxt). reflexivity.
Qed.

Lemma submit_appends_user_then_three_replies_witness :
  JsString.trim (userInput (Examples.typed " help me ")) <> ""
  /\ VStr "This is a custom response from the API handler." <> VUndefined
  /\ messages (snd (handleSendMessage Examples.customField (Examples.typed " help me ")))
     = [ {| text := "help me"; isUser := true; timestamp := 0 |} ]
  /\ exists txt,
      rendersAs (VStr "This is a custom response from the API handler.") txt
      /\ length (messages (snd (runTask Examples.customField
                                  (AwaitHandler "help me" (Examples.customApi "help me"))
                                  0%Q (Examples.typed ""))))
         = 3%nat.
Proof.
  split; [discriminate|]. split; [discriminate|].
  destruct (submit_appends_user_then_three_replies
              Examples.customField (Examples.typed " help me ")
              {| payload := VStr "This is a custom response from the API handler." |}
              "help me" 0%Q (Examples.typed ""))
    as [[Hu _] [txt [Hr Hm]]]; [discriminate | discriminate |].
  split; [exact Hu|].
  exists txt. split; [exact Hr|].
  unfold Examples.customApi. rewrite Hm. reflexivity.
Defined.

(** When the payload is [undefined] the response has no string form:
    [payload.toString()] throws after the lead-in was appended, and the
    [catch] block reports it. *)
Lemma fulfilled_with_undefined_payload
    (props : AiConfigHelperProps) (sent : string) (random : Q) (w : World) :
  messages (snd (runTask props (AwaitHandler sent (Fulfilled {| payload := VUndefined |}))
                   random w))
  = (messages w
     ++ [ assistantMessage (leadInText props) w;
          assistantMessage
            (errorText (ToString.cannotRead "undefined" "toString")) w ])%list.
Proof.
  cbn [runTask]. rewrite resume_fulfilled_eq.
  rewrite (resume_payload_throws props {| payload := VUndefined |} _ w
             payloadText_undefined). reflexivity.
Qed.

(* ------------------------------------------------------------------ *)
(** * Settlement                                                       *)
(* ------------------------------------------------------------------ *)

(** However the awaited step ends, the continuation returns normally, and
    it changes the state only by appending messages, logging, and
    lowering the loading flag. *)
Lemma runTask_settles (props : AiConfigHelperProps) (t : Task) (random : Q) (w : World) :
  isDispatch t = true ->
  exists added logged,
    runTask props t random w = (inl tt, settledWorld w added logged).
Proof.
  intros Ht. destruct t as [ms | sent [response | e] | ms]; try discriminate.
  - cbn [runTask]. rewrite resume_fulfilled_eq.
    destruct (payloadText (payload response)) as [e | txt] eqn:E.
    + rewrite (resume_payload_throws props response e w E). eauto.
    + rewrite (resume_ok props response txt w E). eauto.
  - cbn [runTask]. rewrite resume_rejected. eauto.
  - cbn [runTask]. destruct (mockApiResponse props random) as [response|].
    + destruct (payloadText (payload response)) as [e | txt] eqn:E.
      * rewrite (resume_payload_throws props response e w E). eauto.
      * rewrite (resume_ok props response txt w E). eauto.
    + rewrite resume_undefined_response. eauto.
Qed.

(** C3.  When the promise of the handler is rejected with [e] (a handler
    that throws is the same case), the continuation returns normally:
    nothing reaches the host.  It appends exactly one assistant message,
    whose text is "Sorry, I encountered an error: " followed by the
    message of [e] when [e] is an [Error], and by "Unknown error" when it
    is any other value; and the loading flag is false afterwards.  The
    second part is the same for a whole submit: Enter on a non-blank input
    with a rejecting handler, then the settlement. *)
Theorem rejection_is_reported_once
    (props : AiConfigHelperProps) (JSON_parse : string -> option JsValue)
    (sent : string) (e : Thrown) (random : Q) (w2 : World) :
  let description :=
    match e with
    | ErrorObject _ message => message
    | ThrownValue _ => "Unknown error"
    end in
  let report (w : World) : Message :=
    {| text := "Sorry, I encountered an error: " ++ description;
       isUser := false; timestamp := clock w |} in
  let r := runTask props (AwaitHandler sent (Rejected e)) random w2 in
  (fst r = inl tt
   /\ messages (snd r) = (messages w2 ++ [report w2])%list
   /\ isLoading (snd r) = false)
  /\ forall (handler : string -> Settled MessageResponse) (w : World),
      onSendMessage props = Some handler ->
      isOpen w = true ->
      JsString.trim (userInput w) <> "" ->
      handler (JsString.trim (userInput w)) = Rejected e ->
      let w1 := step props JSON_parse (KeyDown "Enter" false) w in
      let r := dispatch props JSON_parse (RunTask (length (tasks w)) random) w1 in
      isLoading w1 = true
      /\ fst r = inl tt
      /\ messages (snd r) = (messages w ++ [userMessageOf w; report w])%list
      /\ isLoading (snd r) = false.
Proof.
  intros description report r. split.
  - subst r. cbn [runTask]. rewrite resume_rejected. repeat split.
  - intros handler w Hh Ho Hin Hrej w1 r'.
    assert (Hw1 : w1 = snd (handleSendMessage props w)).
    { subst w1. unfold step. now rewrite enter_is_handleSendMessage. }
    rewrite (handleSendMessage_nonblank props w Hin) in Hw1. cbn [snd] in Hw1.
    unfold dispatchOf in Hw1. rewrite Hh, Hrej in Hw1.
    subst r'.
    rewrite (run_last_task props JSON_parse w1
               (AwaitHandler (JsString.trim (userInput w)) (Rejected e))
               random (tasks w)) by (rewrite Hw1; reflexivity).
    cbn [runTask]. rewrite resume_rejected. rewrite Hw1. cbn.
    rewrite <- app_assoc. repeat split.
Qed.

Lemma rejection_is_reported_once_witness :
  onSendMessage Examples.failingField = Some Examples.failingApi
  /\ isOpen (Examples.typed "help") = true
  /\ JsString.trim (userInput (Examples.typed "help")) <> ""
  /\ Examples.failingApi "help" = Rejected (ErrorObject "Error" "Network down")
  /\ messages
       (run Examples.failingField RefParser.parse
          [KeyDown "Enter" false; RunTask 0 0%Q] (Examples.typed "help"))
     = [ {| text := "help"; isUser := true; timestamp := 0 |};
         {| text := "Sorry, I encountered an error: Network down";
            isUser := false; timestamp := 0 |} ].
Proof.
  repeat (split; [first [reflexivity | discriminate] |]).
  destruct (rejection_is_reported_once
              Examples.failingField RefParser.parse "help"
              (ErrorObject "Error" "Network down") 0%Q (Examples.typed ""))
    as [_ H].
  destruct (H Examples.failingApi (Examples.typed "help"))
    as [_ [_ [Hm _]]]; [reflexivity | reflexivity | discriminate | reflexivity |].
  exact Hm.
Defined.

(** C4.  A blank input (empty, or white space only: exactly the inputs
    whose [trim()] is [""]) makes [handleSendMessage] return at once: the
    whole state is as before, messages, loading flag, input and pending
    tasks included, so no handler is called.  The same holds for the two
    ways to it, the Enter key and the send button. *)
Theorem blank_submit_is_noop
    (props : AiConfigHelperProps) (JSON_parse : string -> option JsValue) (w : World) :
  JsString.allWhiteSpace (userInput w) = true ->
  JsString.trim (userInput w) = ""
  /\ handleSendMessage props w = (inl tt, w)
  /\ dispatch props JSON_parse (KeyDown "Enter" false) w = (inl tt, w)
  /\ dispatch props JSON_parse ClickSend w = (inl tt, w).
Proof.
  intros H. apply trim_empty_iff in H.
  pose proof (handleSendMessage_blank props w H) as Hs.
  repeat split; try assumption.
  - destruct (isOpen w) eqn:Ho.
    + rewrite enter_is_handleSendMessage by assumption. exact Hs.
    + unfold dispatch, bind, render. rewrite Ho. reflexivity.
  - apply click_send_disabled. unfold sendDisabled. rewrite H. reflexivity.
Qed.

Lemma blank_submit_is_noop_witness :
  JsString.allWhiteSpace (userInput (Examples.typed "   ")) = true
  /\ handleSendMessage Examples.customField (Examples.typed "   ")
     = (inl tt, Examples.typed "   ").
Proof.
  split; [reflexivity|].
  apply (blank_submit_is_noop Examples.customField RefParser.parse
           (Examples.typed "   ")).
  reflexivity.
Defined.

Lemma isDispatch_dispatchOf (props : AiConfigHelperProps) (sent : string) :
  isDispatch (dispatchOf props sent) = true.
Proof. unfold dispatchOf. destruct (onSendMessage props); reflexivity. Qed.

(** Enter on a non-blank input, then the settlement of the dispatch it
    started, with no event in between. *)
Lemma enter_then_settle
    (props : AiConfigHelperProps) (JSON_parse : string -> option JsValue)
    (random : Q) (w : World) :
  isOpen w = true ->
  JsString.trim (userInput w) <> "" ->
  exists added logged,
    dispatch props JSON_parse (RunTask (length (tasks w)) random)
      (step props JSON_parse (KeyDown "Enter" false) w)
    = (inl tt,
       {| anchorEl := anchorEl w;
          userInput := "";
          messages := (messages w ++ [userMessageOf w]) ++ added;
          isLoading := false;
          clock := clock w;
          tasks := tasks w;
          console :=
            (console w ++ [("User query:", VStr (JsString.trim (userInput w)))])
              ++ logged;
          applied := applied w |}).
Proof.
  intros Ho Hin. unfold step. rewrite enter_is_handleSendMessage by exact Ho.
  rewrite (handleSendMessage_nonblank props w Hin). cbn [snd].
  rewrite (run_last_task props JSON_parse _
             (dispatchOf props (JsString.trim (userInput w))) random (tasks w))
    by reflexivity.
  cbn [anchorEl userInput messages isLoading clock tasks console applied].
  match goal with
  | |- context [runTask props ?t random ?w0] =>
      destruct (runTask_settles props t random w0
                  (isDispatch_dispatchOf props _)) as [added [logged ->]]
  end.
  exists added, logged. reflexivity.
Qed.

(** C7.  A submit of a non-blank input clears the input text at once,
    before the dispatch starts ([setUserInput("")] precedes the [try]).
    When the dispatch settles, whether the promise was fulfilled or
    rejected and whatever the payload or the random draw, the
    continuation returns normally with the loading flag false (the
    [finally] block), and it does not write the input text.  So when the
    dispatch of a submit settles, the input is empty and the loading flag
    is false; only what the user has typed since the submit can be in the
    input. *)
Theorem input_cleared_and_loading_reset
    (props : AiConfigHelperProps) (JSON_parse : string -> option JsValue)
    (w : World) (t : Task) (random : Q) (w2 : World) :
  JsString.trim (userInput w) <> "" ->
  isDispatch t = true ->
  let w1 := snd (handleSendMessage props w) in
  let r := runTask props t random w2 in
  (userInput w1 = ""
   /\ isLoading w1 = true
   /\ fst r = inl tt
   /\ isLoading (snd r) = false
   /\ userInput (snd r) = userInput w2)
  /\ (isOpen w = true ->
      let settled :=
        dispatch props JSON_parse (RunTask (length (tasks w)) random)
          (step props JSON_parse (KeyDown "Enter" false) w) in
      fst settled = inl tt
      /\ userInput (snd settled) = ""
      /\ isLoading (snd settled) = false).
Proof.
  intros Hin Ht w1 r. split.
  - subst w1. rewrite (handleSendMessage_nonblank props w Hin).
    destruct (runTask_settles props t random w2 Ht) as [added [logged E]].
    subst r. rewrite E. repeat split.
  - intros Ho settled.
    destruct (enter_then_settle props JSON_parse random w Ho Hin)
      as [added [logged E]].
    subst settled. rewrite E. repeat split.
Qed.

Lemma input_cleared_and_loading_reset_witness :
  JsString.trim (userInput (Examples.typed "help")) <> ""
  /\ isDispatch (AwaitHandler "help" (Examples.failingApi "help")) = true
  /\ isOpen (Examples.typed "help") = true
  /\ userInput
       (run Examples.failingField RefParser.parse
          [KeyDown "Enter" false; RunTask 0 0%Q] (Examples.typed "help"))
     = ""
  /\ isLoading
       (run Examples.failingField RefParser.parse
          [KeyDown "Enter" false; RunTask 0 0%Q] (Examples.typed "help"))
     = false.
Proof.
  split; [discriminate|]. split; [reflexivity|]. split; [reflexivity|].
  destruct (input_cleared_and_loading_reset
              Examples.failingField RefParser.parse (Examples.typed "help")
              (AwaitHandler "help" (Examples.failingApi "help")) 0%Q
              (Examples.typed ""))
    as [_ H]; [discriminate | reflexivity |].
  destruct (H eq_refl) as [_ [Hu Hl]].
  split; [exact Hu | exact Hl].
Defined.

(** Settlement leaves the input alone: what the user typed while the
    dispatch was pending is still there afterwards. *)
Lemma typed_while_waiting_is_kept :
  let w :=
    run Examples.schemaField RefParser.parse
      [ClickHelp 1%nat; ChangeInput "a"; KeyDown "Enter" false;
       ChangeInput "b"; RunTask 1 0%Q]
      (mount 0) in
  userInput w = "b" /\ isLoading w = false /\ length (messages w) = 5%nat.
Proof. cbv. repeat split. Qed.

(* ------------------------------------------------------------------ *)
(** * Opening and closing                                              *)
(* ------------------------------------------------------------------ *)

Lemma handleOpenChat_empty (props : AiConfigHelperProps) (el : Element) (w : World) :
  messages w = [] ->
  messages (snd (handleOpenChat props el w))
  = [ {| text := welcomeText props; isUser := false; timestamp := clock w |} ].
Proof.
  intros H. unfold handleOpenChat, bind, render. cbn. rewrite H. reflexivity.
Qed.

Lemma handleOpenChat_nonempty (props : AiConfigHelperProps) (el : Element) (w : World) :
  messages w <> [] ->
  messages (snd (handleOpenChat props el w)) = messages w.
Proof.
  intros H. unfold handleOpenChat, bind, render. cbn.
  destruct (messages w) as [|m ms]; [congruence | reflexivity].
Qed.

Lemma open_close_keeps_history
    (props : AiConfigHelperProps) (JSON_parse : string -> option JsValue)
    (ev : Event) (w : World) :
  opensOrCloses ev = true ->
  messages w <> [] ->
  messages (step props JSON_parse ev w) = messages w.
Proof.
  intros Hev Hne. destruct ev; try discriminate.
  - unfold step, dispatch, bind, render. cbn [snd].
    apply (handleOpenChat_nonempty props currentTarget w Hne).
  - unfold step, dispatch, bind, render.
    destruct (isOpen w); reflexivity.
Qed.

Lemma reopening_keeps_history
    (props : AiConfigHelperProps) (JSON_parse : string -> option JsValue)
    (evs : list Event) :
  forall w : World,
    forallb opensOrCloses evs = true ->
    messages w <> [] ->
    messages (run props JSON_parse evs w) = messages w.
Proof.
  induction evs as [|ev evs IH]; intros w Hall Hne; [reflexivity|].
  cbn [forallb] in Hall. apply andb_true_iff in Hall as [Hev Hall].
  cbn [run].
  pose proof (open_close_keeps_history props JSON_parse ev w Hev Hne) as Hk.
  rewrite IH; [exact Hk | exact Hall | congruence].
Qed.

(** C5.  [handleOpenChat] on an empty message sequence makes it exactly
    one assistant message, whose text is the [welcomeMessage] prop when
    that is a non-empty string and otherwise the default template with the
    field name in it; on a non-empty sequence it leaves the messages as
    they are.  So after a first opening, any further openings and closings
    add nothing. *)
Theorem open_inserts_welcome_once
    (props : AiConfigHelperProps) (JSON_parse : string -> option JsValue)
    (el : Element) (w : World) :
  let default :=
    "Hi there! I'm AiConfigHelper. How can I help you configure the "
      ++ dq ++ fieldName props ++ dq ++ " field?" in
  let welcome :=
    match welcomeMessage props with
    | Some custom => if custom =? "" then default else custom
    | None => default
    end in
  let w' := step props JSON_parse (ClickHelp el) w in
  (messages w = [] ->
   messages w' = [ {| text := welcome; isUser := false; timestamp := clock w |} ])
  /\ (messages w <> [] -> messages w' = messages w)
  /\ (forall evs : list Event,
        forallb opensOrCloses evs = true ->
        messages (run props JSON_parse evs w') = messages w').
Proof.
  intros default welcome w'.
  assert (Hstep : messages w' = messages (snd (handleOpenChat props el w))).
  { subst w'. unfold step, dispatch, bind, render. reflexivity. }
  split; [|split].
  - intros H. rewrite Hstep. apply (handleOpenChat_empty props el w H).
  - intros H. rewrite Hstep. apply (handleOpenChat_nonempty props el w H).
  - intros evs Hevs. apply reopening_keeps_history; [exact Hevs|].
    rewrite Hstep. destruct (messages w) as [|m ms] eqn:E.
    + rewrite (handleOpenChat_empty props el w E). discriminate.
    + rewrite handleOpenChat_nonempty by (rewrite E; discriminate).
      rewrite E. discriminate.
Qed.

Lemma open_inserts_welcome_once_witness :
  messages (mount 0) = []
  /\ forallb opensOrCloses [ClosePopover; ClickHelp 2%nat; ClickHelp 3%nat] = true
  /\ messages
       (run Examples.customField RefParser.parse
          [ClickHelp 1%nat; ClosePopover; ClickHelp 2%nat; ClickHelp 3%nat] (mount 0))
     = [ {| text := "Hello! This is a custom welcome message.";
            isUser := false; timestamp := 0 |} ].
Proof.
  split; [reflexivity|]. split; [reflexivity|].
  destruct (open_inserts_welcome_once
              Examples.customField RefParser.parse 1%nat (mount 0))
    as [Hfirst [_ Hmore]].
  exact (eq_trans
           (Hmore [ClosePopover; ClickHelp 2%nat; ClickHelp 3%nat] eq_refl)
           (Hfirst eq_refl)).
Defined.

(** An empty [welcomeMessage] is falsy: the default template is used. *)
Lemma empty_welcome_override_gives_default (props : AiConfigHelperProps) :
  welcomeMessage props = Some "" ->
  welcomeText props = defaultWelcomeMessage props.
Proof. intros H. unfold welcomeText. rewrite H. reflexivity. Qed.

(* ------------------------------------------------------------------ *)
(** * Applying a value                                                 *)
(* ------------------------------------------------------------------ *)

(** C6.  [handleApplyValue] does nothing when there is no [onApplyValue].
    Otherwise, when [JSON.parse] accepts the text, the callback is called
    with the parsed value, and that is its only call when the callback
    returns; when [JSON.parse] throws, the callback is called once, with
    the text itself as a string, and the outcome of [handleApplyValue] is
    the outcome of that call: the parse failure itself is never the
    error. *)
Theorem apply_parses_or_passes_text
    (props : AiConfigHelperProps) (JSON_parse : string -> option JsValue)
    (message : string) (w : World) :
  let r := handleApplyValue props JSON_parse message w in
  (onApplyValue props = None -> r = (inl tt, w))
  /\ (forall callback value,
        onApplyValue props = Some callback ->
        JSON_parse message = Some value ->
        exists more,
          applied (snd r) = (applied w ++ value :: more)%list
          /\ (callback value = None -> more = [] /\ fst r = inl tt))
  /\ (forall callback,
        onApplyValue props = Some callback ->
        JSON_parse message = None ->
        applied (snd r) = (applied w ++ [VStr message])%list
        /\ fst r = match callback (VStr message) with
                   | None => inl tt
                   | Some e => inr e
                   end).
Proof.
  intros r. subst r. unfold handleApplyValue. split; [|split].
  - intros H. rewrite H. reflexivity.
  - intros callback value Hcb Hp. rewrite Hcb, Hp.
    unfold tryCatch, bind, liftThrow, ret, callApply. cbn.
    destruct (callback value) as [e|] eqn:E.
    + cbn. destruct (callback (VStr message));
        (exists [VStr message]; cbn; rewrite <- app_assoc; split;
         [reflexivity | discriminate]).
    + exists []. cbn. split; [reflexivity | intros _; split; reflexivity].
  - intros callback Hcb Hp. rewrite Hcb, Hp.
    unfold tryCatch, bind, liftThrow, throw, callApply. cbn.
    destruct (callback (VStr message)); split; reflexivity.
Qed.

Lemma apply_parses_or_passes_text_witness :
  let json := "{" ++ dq ++ "x" ++ dq ++ ":1}" in
  onApplyValue Examples.schemaField = Some (fun _ => None)
  /\ RefParser.parse json = Some (VObj [("x", VNum 1)])
  /\ RefParser.parse "hello world" = None
  /\ applied (snd (handleApplyValue Examples.schemaField RefParser.parse json
                     (Examples.typed "")))
     = [VObj [("x", VNum 1)]]
  /\ applied (snd (handleApplyValue Examples.schemaField RefParser.parse "hello world"
                     (Examples.typed "")))
     = [VStr "hello world"].
Proof.
  intros json. split; [reflexivity|]. split; [reflexivity|]. split; [reflexivity|].
  split.
  - destruct (apply_parses_or_passes_text
                Examples.schemaField RefParser.parse json (Examples.typed ""))
      as [_ [H _]].
    destruct (H (fun _ => None) (VObj [("x", VNum 1)]) eq_refl eq_refl)
      as [more [Ha Hm]].
    destruct (Hm eq_refl) as [Hnil _]. rewrite Ha, Hnil. reflexivity.
  - destruct (apply_parses_or_passes_text
                Examples.schemaField RefParser.parse "hello world" (Examples.typed ""))
      as [_ [_ H]].
    destruct (H (fun _ => None) eq_refl eq_refl) as [Ha _]. exact Ha.
Defined.

(** When the callback throws on the parsed value the [catch] block takes
    it for a parse failure and calls the callback again, with the text. *)
Lemma apply_callback_throws_is_retried_with_text
    (props : AiConfigHelperProps) (JSON_parse : string -> option JsValue)
    (message : string) (w : World) callback value e :
  onApplyValue props = Some callback ->
  JSON_parse message = Some value ->
  callback value = Some e ->
  applied (snd (handleApplyValue props JSON_parse message w))
  = (applied w ++ [value; VStr message])%list.
Proof.
  intros Hcb Hp He. unfold handleApplyValue. rewrite Hcb, Hp.
  unfold tryCatch, bind, liftThrow, ret, callApply. cbn. rewrite He. cbn.
  destruct (callback (VStr message)); cbn; rewrite <- app_assoc; reflexivity.
Qed.

(* ------------------------------------------------------------------ *)
(** * The mock                                                         *)
(* ------------------------------------------------------------------ *)






(** The scenario of the specification: field name "JSON Schema", no
    custom handler, "help me" submitted, the timer fires with the draw
    1/2.  The second payload is chosen and printed as JSON text, as the
    second of the three assistant messages. *)
Lemma json_schema_scenario :
  map text
    (messages
       (run Examples.schemaField RefParser.parse
          [KeyDown "Enter" false; RunTask 0 (1 # 2)%Q] (Examples.typed "help me")))
  = [ "help me";
      "Here's what I suggest for the " ++ dq ++ "JSON Schema" ++ dq ++ " field:";
      "{" ++ JSON.newline
      ++ "  " ++ dq ++ "example" ++ dq ++ ": {" ++ JSON.newline
      ++ "    " ++ dq ++ "name" ++ dq ++ ": " ++ dq ++ "John Doe" ++ dq ++ "," ++ JSON.newline
      ++ "    " ++ dq ++ "age" ++ dq ++ ": 30" ++ JSON.newline
      ++ "  }" ++ JSON.newline
      ++ "}";
      "Would you like to apply this value to the field? Just click on the message." ].
Proof. vm_compute. reflexivity. Qed.

(* ------------------------------------------------------------------ *)
(** * The message sequence only grows                                  *)
(* ------------------------------------------------------------------ *)

Create HintDb keeps discriminated.

Lemma keeps_ret {A} (a : A) : keepsMessages (ret a).
Proof. intros w. reflexivity. Qed.

Lemma keeps_throw {A} (e : Thrown) : keepsMessages (@throw A e).
Proof. intros w. reflexivity. Qed.

Lemma keeps_bind {A B} (c : Eff A) (k : A -> Eff B) :
  keepsMessages c -> (forall a, keepsMessages (k a)) -> keepsMessages (bind c k).
Proof.
  intros Hc Hk w. unfold bind. specialize (Hc w).
  destruct (c w) as [[a | e] w1]; cbn [snd] in *.
  - now rewrite Hk.
  - exact Hc.
Qed.

Lemma keeps_tryCatch {A} (body : Eff A) (handler : Thrown -> Eff A) :
  keepsMessages body -> (forall e, keepsMessages (handler e)) ->
  keepsMessages (tryCatch body handler).
Proof.
  intros Hb Hh w. unfold tryCatch. specialize (Hb w).
  destruct (body w) as [[a | e] w1]; cbn [snd] in *.
  - exact Hb.
  - now rewrite Hh.
Qed.

Lemma keeps_liftThrow {A} (r : Thrown + A) : keepsMessages (liftThrow r).
Proof. destruct r; intros w; reflexivity. Qed.

Lemma keeps_callApply (cb : JsValue -> option Thrown) (v : JsValue) :
  keepsMessages (callApply cb v).
Proof. intros w. unfold callApply. destruct (cb v); reflexivity. Qed.

Lemma keeps_setAnchorEl (el : option Element) : keepsMessages (setAnchorEl el).
Proof. intros w. reflexivity. Qed.

Lemma keeps_setUserInput (s : string) : keepsMessages (setUserInput s).
Proof. intros w. reflexivity. Qed.

Lemma keeps_elapse (dt : Z) : keepsMessages (elapse dt).
Proof. intros w. reflexivity. Qed.

#[local] Hint Resolve keeps_ret keeps_throw keeps_bind keeps_tryCatch
  keeps_liftThrow keeps_callApply keeps_setAnchorEl keeps_setUserInput
  keeps_elapse : keeps.

Lemma keeps_handleApplyValue
    (props : AiConfigHelperProps) (JSON_parse : string -> option JsValue)
    (message : string) :
  keepsMessages (handleApplyValue props JSON_parse message).
Proof.
  unfold handleApplyValue. destruct (onApplyValue props); auto 6 with keeps.
Qed.

Lemma keeps_handleCloseChat : keepsMessages handleCloseChat.
Proof. unfold handleCloseChat. auto with keeps. Qed.

Lemma keeps_handleInputChange (value : string) :
  keepsMessages (handleInputChange value).
Proof. unfold handleInputChange. auto with keeps. Qed.

(** One event: what was there is still there, at the front. *)
Lemma step_appends
    (props : AiConfigHelperProps) (JSON_parse : string -> option JsValue)
    (ev : Event) (w : World) :
  exists added, messages (step props JSON_parse ev w) = (messages w ++ added)%list.
Proof.
  assert (Hsend : exists added,
             messages (snd (handleSendMessage props w)) = (messages w ++ added)%list).
  { destruct (String.eqb_spec (JsString.trim (userInput w)) "") as [Hb | Hn].
    - rewrite (handleSendMessage_blank props w Hb). exists []. now rewrite app_nil_r.
    - rewrite (handleSendMessage_nonblank props w Hn). eexists. reflexivity. }
  assert (Hsame : exists added, messages w = (messages w ++ added)%list).
  { exists []. now rewrite app_nil_r. }
  unfold step, dispatch, bind, render.
  destruct ev as [el | | value | key shiftKey | | i | dt | i random].
  - cbn [snd]. destruct (messages w) as [|m ms] eqn:E.
    + rewrite (handleOpenChat_empty props el w E). eexists. reflexivity.
    + rewrite handleOpenChat_nonempty by (rewrite E; discriminate).
      rewrite E. exists []. now rewrite app_nil_r.
  - destruct (isOpen w); cbn [negb]; [|exact Hsame].
    rewrite keeps_handleCloseChat. exact Hsame.
  - destruct (isOpen w); cbn [negb]; [|exact Hsame].
    rewrite keeps_handleInputChange. exact Hsame.
  - destruct (isOpen w); cbn [negb]; [|exact Hsame].
    unfold handleKeyPress.
    destruct ((key =? "Enter") && negb shiftKey); [exact Hsend | exact Hsame].
  - destruct (isOpen w); cbn [negb]; [|exact Hsame].
    destruct (sendDisabled w); [exact Hsame | exact Hsend].
  - destruct (isOpen w); cbn [negb]; [|exact Hsame].
    destruct (nth_error (messages w) i) as [m|]; [|exact Hsame].
    destruct (isUser m); cbn [negb]; [exact Hsame|].
    rewrite keeps_handleApplyValue. exact Hsame.
  - exact Hsame.
  - unfold takeTask.
    destruct (nth_error (tasks w) i) as [t|]; [|exact Hsame].
    destruct (isDispatch t) eqn:Ht.
    + match goal with
      | |- context [runTask props t random ?w0] =>
          destruct (runTask_settles props t random w0 Ht) as [added [logged ->]]
      end.
      exists added. reflexivity.
    + destruct t; try discriminate. exact Hsame.
Qed.

Lemma run_appends
    (props : AiConfigHelperProps) (JSON_parse : string -> option JsValue)
    (evs : list Event) :
  forall w, exists added,
    messages (run props JSON_parse evs w) = (messages w ++ added)%list.
Proof.
  induction evs as [|ev evs IH]; intros w; cbn [run].
  - exists []. now rewrite app_nil_r.
  - destruct (IH (step props JSON_parse ev w)) as [more Hmore].
    destruct (step_appends props JSON_parse ev w) as [added Hadd].
    exists (added ++ more)%list. rewrite Hmore, Hadd. now rewrite app_assoc.
Qed.

(** C9.  Whatever the events of a session are (opening, closing, typing,
    keys, clicks on the send button or on a message, time passing,
    settlements; there is no other event, none that clears), the
    messages at the start are a prefix, unchanged, of the messages at the
    end.  Closing changes nothing in the sequence, and closing then
    reopening a panel that has messages gives the same sequence back. *)
Theorem messages_are_append_only
    (props : AiConfigHelperProps) (JSON_parse : string -> option JsValue)
    (evs : list Event) (el : Element) (w : World) :
  (exists added,
      messages (run props JSON_parse evs w) = (messages w ++ added)%list)
  /\ messages (step props JSON_parse ClosePopover w) = messages w
  /\ (messages w <> [] ->
      messages (run props JSON_parse [ClosePopover; ClickHelp el] w) = messages w).
Proof.
  split; [apply run_appends|]. split.
  - unfold step, dispatch, bind, render. destruct (isOpen w); reflexivity.
  - intros Hne. apply reopening_keeps_history; [reflexivity | exact Hne].
Qed.

Lemma messages_are_append_only_witness :
  let w :=
    run Examples.customField RefParser.parse
      [ClickHelp 1%nat; ChangeInput "help me"; KeyDown "Enter" false;
       RunTask 1 0%Q]
      (mount 0) in
  messages w <> []
  /\ length (messages w) = 5%nat
  /\ messages (run Examples.customField RefParser.parse
                 [ClosePopover; ClickHelp 2%nat] w)
     = messages w.
Proof.
  intros w. split; [discriminate|]. split; [reflexivity|].
  apply (messages_are_append_only Examples.customField RefParser.parse
           [] 2%nat w).
  discriminate.
Defined.

(* ------------------------------------------------------------------ *)
(** * Style defaults                                                   *)
(* ------------------------------------------------------------------ *)

(** C10.  [componentStyles] takes each default through [||], so a falsy
    value is replaced like an absent one: a [width] or [maxHeight] of 0
    gives 320 or 400, an empty colour gives "primary.main", "white" or
    "grey.100"; any other supplied value is kept.  So no computed
    dimension is 0 and no computed colour is empty. *)
Theorem style_defaults_replace_falsy (props : AiConfigHelperProps) (s : Styles) :
  styles props = Some s ->
  let cs := componentStyles props in
  (width s = Some 0%Z \/ width s = None -> cs_width cs = 320%Z)
  /\ (maxHeight s = Some 0%Z \/ maxHeight s = None -> cs_maxHeight cs = 400%Z)
  /\ (userMessageColor s = Some "" \/ userMessageColor s = None ->
      cs_userMessageColor cs = "primary.main")
  /\ (userMessageTextColor s = Some "" \/ userMessageTextColor s = None ->
      cs_userMessageTextColor cs = "white")
  /\ (assistantMessageColor s = Some "" \/ assistantMessageColor s = None ->
      cs_assistantMessageColor cs = "grey.100")
  /\ (forall n, width s = Some n -> n <> 0%Z -> cs_width cs = n)
  /\ (forall n, maxHeight s = Some n -> n <> 0%Z -> cs_maxHeight cs = n)
  /\ (forall c, userMessageColor s = Some c -> c <> "" -> cs_userMessageColor cs = c)
  /\ (forall c, userMessageTextColor s = Some c -> c <> "" ->
                cs_userMessageTextColor cs = c)
  /\ (forall c, assistantMessageColor s = Some c -> c <> "" ->
                cs_assistantMessageColor cs = c)
  /\ cs_width cs <> 0%Z /\ cs_maxHeight cs <> 0%Z
  /\ cs_userMessageColor cs <> "" /\ cs_userMessageTextColor cs <> ""
  /\ cs_assistantMessageColor cs <> "".
Proof.
  intros Hs cs. subst cs. unfold componentStyles, stylesOrDefault. rewrite Hs.
  cbn [cs_width cs_maxHeight cs_userMessageColor cs_userMessageTextColor
       cs_assistantMessageColor].
  assert (Hnum : forall o d, d <> 0%Z ->
            (o = Some 0%Z \/ o = None -> orNumber o d = d)
            /\ (forall n, o = Some n -> n <> 0%Z -> orNumber o d = n)
            /\ orNumber o d <> 0%Z).
  { intros o d Hd. unfold orNumber. destruct o as [n|].
    - destruct (Z.eqb_spec n 0) as [-> | Hn].
      + repeat split; auto. intros n [= <-] H. congruence.
      + repeat split; auto.
        * intros [[= H] | H]; congruence.
        * intros m [= <-] _. reflexivity.
    - repeat split; auto. discriminate. }
  assert (Hstr : forall o d, d <> "" ->
            (o = Some "" \/ o = None -> Js.orString o d = d)
            /\ (forall c, o = Some c -> c <> "" -> Js.orString o d = c)
            /\ Js.orString o d <> "").
  { intros o d Hd. unfold Js.orString. destruct o as [c|].
    - destruct (String.eqb_spec c "") as [-> | Hc].
      + repeat split; auto. intros c [= <-] H. congruence.
      + repeat split; auto.
        * intros [[= H] | H]; congruence.
        * intros m [= <-] _. reflexivity.
    - repeat split; auto. discriminate. }
  destruct (Hnum (width s) 320%Z) as [A1 [A2 A3]]; [discriminate|].
  destruct (Hnum (maxHeight s) 400%Z) as [B1 [B2 B3]]; [discriminate|].
  destruct (Hstr (userMessageColor s) "primary.main") as [C1 [C2 C3]]; [discriminate|].
  destruct (Hstr (userMessageTextColor s) "white") as [D1 [D2 D3]]; [discriminate|].
  destruct (Hstr (assistantMessageColor s) "grey.100") as [E1 [E2 E3]]; [discriminate|].
  repeat split; assumption.
Qed.

Lemma style_defaults_replace_falsy_witness :
  let s := {| width := Some 0%Z; maxHeight := Some 0%Z;
              assistantMessageColor := Some ""; userMessageColor := Some "";
              userMessageTextColor := Some "" |} in
  let p := {| fieldId := "styled"; fieldName := "Styled Field";
              onApplyValue := None; placement := None; onSendMessage := None;
              welcomeMessage := None; helpButtonLabel := None;
              styles := Some s |} in
  styles p = Some s
  /\ componentStyles p
     = {| cs_width := 320; cs_maxHeight := 400;
          cs_userMessageColor := "primary.main";
          cs_userMessageTextColor := "white";
          cs_assistantMessageColor := "grey.100" |}.
Proof.
  intros s p. split; [reflexivity|].
  destruct (style_defaults_replace_falsy p s eq_refl)
    as [Hw [Hh [Hu [Ht [Ha _]]]]].
  destruct (componentStyles p) as [cw ch cu ct ca] eqn:E.
  cbn [cs_width cs_maxHeight cs_userMessageColor cs_userMessageTextColor
       cs_assistantMessageColor] in *.
  rewrite (Hw (or_introl eq_refl)), (Hh (or_introl eq_refl)),
    (Hu (or_introl eq_refl)), (Ht (or_introl eq_refl)), (Ha (or_introl eq_refl)).
  reflexivity.
Defined.

(* ------------------------------------------------------------------ *)
(** * More on [trim]                                                   *)
(* ------------------------------------------------------------------ *)

Lemma trimStart_shape (s : string) :
  JsString.trimStart s = ""
  \/ exists c t, JsString.trimStart s = String c t /\ JsString.isWhiteSpace c = false.
Proof.
  induction s as [|c s IH]; simpl; [left; reflexivity|].
  destruct (JsString.isWhiteSpace c) eqn:E; [exact IH|].
  right. exists c, s. split; [reflexivity | exact E].
Qed.

Lemma trimEnd_keeps_head (c : ascii) (s : string) :
  JsString.isWhiteSpace c = false ->
  exists t, JsString.trimEnd (String c s) = String c t.
Proof.
  intros H. simpl. destruct (JsString.trimEnd s); [rewrite H|]; eauto.
Qed.

Lemma trimEnd_idempotent (s : string) :
  JsString.trimEnd (JsString.trimEnd s) = JsString.trimEnd s.
Proof.
  induction s as [|c s IH]; [reflexivity|].
  simpl. destruct (JsString.trimEnd s) as [|d t] eqn:E.
  - destruct (JsString.isWhiteSpace c) eqn:Ec; [reflexivity|].
    simpl. rewrite Ec. reflexivity.
  - change (JsString.trimEnd (String c (String d t)))
      with (match JsString.trimEnd (String d t) with
            | "" => if JsString.isWhiteSpace c then "" else String c ""
            | String a u => String c (String a u)
            end).
    rewrite IH. reflexivity.
Qed.

(** Trimming a trimmed string changes nothing. *)
Lemma trim_idempotent (s : string) :
  JsString.trim (JsString.trim s) = JsString.trim s.
Proof.
  unfold JsString.trim.
  destruct (trimStart_shape s) as [E | [c [t [E Hc]]]]; rewrite E.
  - reflexivity.
  - destruct (trimEnd_keeps_head c t Hc) as [u Eu]. rewrite Eu.
    simpl JsString.trimStart. rewrite Hc. rewrite <- Eu.
    apply trimEnd_idempotent.
Qed.

(** A trimmed string that is not empty starts with a character that is
    not white space. *)
Lemma trim_head_not_space (s : string) (c : ascii) (t : string) :
  JsString.trim s = String c t -> JsString.isWhiteSpace c = false.
Proof.
  unfold JsString.trim.
  destruct (trimStart_shape s) as [E | [d [u [E Hd]]]]; rewrite E.
  - discriminate.
  - destruct (trimEnd_keeps_head d u Hd) as [v Ev]. rewrite Ev.
    intros [= <- _]. exact Hd.
Qed.

(* ------------------------------------------------------------------ *)
(** * What a settlement appends                                        *)
(* ------------------------------------------------------------------ *)

(** A settlement appends one, two or three messages, all of them the
    assistant's. *)
Lemma runTask_appends_assistant
    (props : AiConfigHelperProps) (t : Task) (random : Q) (w : World) :
  isDispatch t = true ->
  exists added logged,
    runTask props t random w = (inl tt, settledWorld w added logged)
    /\ Forall (fun m => isUser m = false) added
    /\ (1 <= length added <= 3)%nat.
Proof.
  intros Ht. destruct t as [ms | sent [response | e] | ms]; try discriminate.
  - cbn [runTask]. rewrite resume_fulfilled_eq.
    destruct (payloadText (payload response)) as [e | txt] eqn:E.
    + rewrite (resume_payload_throws props response e w E).
      do 2 eexists. split; [reflexivity|]. split; [repeat constructor | cbn; lia].
    + rewrite (resume_ok props response txt w E).
      do 2 eexists. split; [reflexivity|]. split; [repeat constructor | cbn; lia].
  - cbn [runTask]. rewrite resume_rejected.
    do 2 eexists. split; [reflexivity|]. split; [repeat constructor | cbn; lia].
  - cbn [runTask]. destruct (mockApiResponse props random) as [response|].
    + destruct (payloadText (payload response)) as [e | txt] eqn:E.
      * rewrite (resume_payload_throws props response e w E).
        do 2 eexists. split; [reflexivity|]. split; [repeat constructor | cbn; lia].
      * rewrite (resume_ok props response txt w E).
        do 2 eexists. split; [reflexivity|]. split; [repeat constructor | cbn; lia].
    + rewrite resume_undefined_response.
      do 2 eexists. split; [reflexivity|]. split; [repeat constructor | cbn; lia].
Qed.

Lemma dispatch_RunTask
    (props : AiConfigHelperProps) (JSON_parse : string -> option JsValue)
    (i : nat) (random : Q) (w : World) :
  dispatch props JSON_parse (RunTask i random) w
  = match nth_error (tasks w) i with
    | Some t => runTask props t random (withoutTask i w)
    | None => (inl tt, withoutTask i w)
    end.
Proof.
  unfold dispatch, bind, render, takeTask, withoutTask.
  destruct (nth_error (tasks w) i); reflexivity.
Qed.

Lemma removeNth_out_of_range {A} (i : nat) (xs : list A) :
  nth_error xs i = None -> removeNth i xs = xs.
Proof.
  revert i. induction xs as [|x xs IH]; intros [|i] H; simpl in *;
    try reflexivity; try discriminate.
  now rewrite IH.
Qed.

Lemma filter_removeNth {A} (f : A -> bool) (i : nat) (xs : list A) (x : A) :
  nth_error xs i = Some x ->
  length (filter f xs)
  = (length (filter f (removeNth i xs)) + (if f x then 1 else 0))%nat.
Proof.
  revert i. induction xs as [|y xs IH]; intros [|i] H; simpl in *; try discriminate.
  - injection H as ->. destruct (f x); simpl; lia.
  - specialize (IH i H). destruct (f y); simpl; lia.
Qed.

(* ------------------------------------------------------------------ *)
(** * One event at a time: the parts of the state it can change        *)
(* ------------------------------------------------------------------ *)

Lemma world_eta (w : World) :
  w = {| anchorEl := anchorEl w; userInput := userInput w; messages := messages w;
         isLoading := isLoading w; clock := clock w; tasks := tasks w;
         console := console w; applied := applied w |}.
Proof. destruct w; reflexivity. Qed.

(** [handleApplyValue] changes nothing but the record of the calls. *)
Lemma handleApplyValue_frame
    (props : AiConfigHelperProps) (JSON_parse : string -> option JsValue)
    (message : string) (w : World) :
  exists more,
    snd (handleApplyValue props JSON_parse message w) = withApplied w more.
Proof.
  unfold handleApplyValue.
  destruct (onApplyValue props) as [cb|].
  - unfold tryCatch, bind, liftThrow, ret, throw, callApply, withApplied.
    destruct (JSON_parse message) as [v|]; cbn.
    + destruct (cb v); cbn.
      * destruct (cb (VStr message)); cbn;
          exists [v; VStr message]; rewrite <- app_assoc; reflexivity.
      * exists [v]. reflexivity.
    + destruct (cb (VStr message)); cbn; exists [VStr message]; reflexivity.
  - exists []. unfold withApplied. cbn. rewrite app_nil_r. apply world_eta.
Qed.

Lemma handleOpenChat_frame (props : AiConfigHelperProps) (el : Element) (w : World) :
  let w' := snd (handleOpenChat props el w) in
  anchorEl w' = Some el
  /\ userInput w' = userInput w
  /\ isLoading w' = isLoading w
  /\ tasks w' = (tasks w ++ [FocusInput 100])%list
  /\ applied w' = applied w.
Proof.
  unfold handleOpenChat, bind, render. cbn.
  destruct (length (messages w) =? 0)%nat; cbn; repeat split.
Qed.

Lemma inFlight_snoc (w : World) (t : Task) (ts : list Task) :
  length (filter isDispatch (ts ++ [t]))
  = (length (filter isDispatch ts) + (if isDispatch t then 1 else 0))%nat.
Proof.
  rewrite filter_app, length_app. cbn. destruct (isDispatch t); reflexivity.
Qed.

Section Flight.

Variable props : AiConfigHelperProps.
Variable JSON_parse : string -> option JsValue.

Lemma handleSendMessage_flight (w : World) :
  let w' := snd (handleSendMessage props w) in
  (isLoading w' = isLoading w /\ inFlight w' = inFlight w)
  \/ (isLoading w' = true /\ inFlight w' = S (inFlight w)).
Proof.
  destruct (String.eqb_spec (JsString.trim (userInput w)) "") as [Hb | Hn].
  - rewrite (handleSendMessage_blank props w Hb). left. split; reflexivity.
  - rewrite (handleSendMessage_nonblank props w Hn). right. cbn. split; [reflexivity|].
    unfold inFlight. cbn [tasks]. rewrite (inFlight_snoc w).
    rewrite isDispatch_dispatchOf. lia.
Qed.

Lemma step_flight (ev : Event) (w : World) :
  FlightChange (isEnter ev) w (step props JSON_parse ev w).
Proof.
  assert (Hsend : forall b, b = true \/ isLoading w = false ->
                            FlightChange b w (snd (handleSendMessage props w))).
  { intros b Hb. destruct (handleSendMessage_flight w) as [[H1 H2] | [H1 H2]];
      [apply FlightSame | apply FlightStarted]; assumption. }
  assert (Hsame : forall b, FlightChange b w w) by (intros b; apply FlightSame; reflexivity).
  unfold step.
  destruct ev as [el | | value | key shiftKey | | i | dt | i random];
    cbn [isEnter].
  - unfold dispatch, bind, render. cbn [snd].
    destruct (handleOpenChat_frame props el w) as [_ [_ [Hl [Ht _]]]].
    apply FlightSame; [exact Hl|].
    unfold inFlight. rewrite Ht, (inFlight_snoc w). cbn. lia.
  - unfold dispatch, bind, render.
    destruct (isOpen w); cbn [negb]; [|apply Hsame]. apply FlightSame; reflexivity.
  - unfold dispatch, bind, render.
    destruct (isOpen w); cbn [negb]; [|apply Hsame]. apply FlightSame; reflexivity.
  - unfold dispatch, bind, render.
    destruct (isOpen w); cbn [negb]; [|apply Hsame].
    unfold handleKeyPress.
    destruct ((key =? "Enter") && negb shiftKey); [|apply Hsame].
    apply Hsend. left. reflexivity.
  - unfold dispatch, bind, render.
    destruct (isOpen w); cbn [negb]; [|apply Hsame].
    destruct (sendDisabled w) eqn:Hd; [apply Hsame|].
    apply Hsend. right. unfold sendDisabled in Hd.
    apply orb_false_iff in Hd. apply Hd.
  - unfold dispatch, bind, render.
    destruct (isOpen w); cbn [negb]; [|apply Hsame].
    destruct (nth_error (messages w) i) as [m|]; [|apply Hsame].
    destruct (isUser m); cbn [negb]; [apply Hsame|].
    destruct (handleApplyValue_frame props JSON_parse (text m) w) as [more ->].
    apply FlightSame; reflexivity.
  - apply FlightSame; reflexivity.
  - rewrite dispatch_RunTask.
    destruct (nth_error (tasks w) i) as [t|] eqn:Hnth.
    + pose proof (filter_removeNth isDispatch i (tasks w) t Hnth) as Hcount.
      destruct (isDispatch t) eqn:Ht.
      * destruct (runTask_settles props t random (withoutTask i w) Ht)
          as [added [logged ->]].
        apply FlightSettled; [reflexivity|].
        unfold inFlight. cbn. lia.
      * destruct t; try discriminate. cbn.
        apply FlightSame; [reflexivity|]. unfold inFlight. cbn. lia.
    + cbn. apply FlightSame; [reflexivity|].
      unfold inFlight. cbn. now rewrite removeNth_out_of_range.
Qed.

End Flight.

(* ------------------------------------------------------------------ *)
(** * Dispatches in flight                                             *)
(* ------------------------------------------------------------------ *)

(** X1.  As long as no submit comes from the Enter key, the loading flag
    counts the dispatches: from a state where it is true with one
    dispatch in flight or false with none, every session of other events
    (clicks on the send button included) leads to such a state again.  So
    through the send button at most one dispatch is ever in flight. *)
Theorem send_button_keeps_one_in_flight
    (props : AiConfigHelperProps) (JSON_parse : string -> option JsValue)
    (evs : list Event) :
  forall w : World,
    inFlight w = (if isLoading w then 1 else 0)%nat ->
    forallb (fun ev => negb (isEnter ev)) evs = true ->
    let w' := run props JSON_parse evs w in
    inFlight w' = (if isLoading w' then 1 else 0)%nat.
Proof.
  induction evs as [|ev evs IH]; intros w Hw Hevs; [exact Hw|].
  cbn [forallb] in Hevs. apply andb_true_iff in Hevs as [Hev Hevs].
  apply negb_true_iff in Hev.
  cbn [run]. apply IH; [|exact Hevs].
  destruct (step_flight props JSON_parse ev w) as [Hl Hn | Hl Hn Hvia | Hl Hn].
  - now rewrite Hl, Hn.
  - rewrite Hl, Hn. destruct Hvia as [Hvia | Hidle]; [congruence|].
    rewrite Hidle in Hw. lia.
  - rewrite Hl. destruct (isLoading w); lia.
Qed.

Lemma send_button_keeps_one_in_flight_witness :
  inFlight (mount 0) = (if isLoading (mount 0) then 1 else 0)%nat
  /\ forallb (fun ev => negb (isEnter ev))
       [ClickHelp 1%nat; ChangeInput "a"; ClickSend; ChangeInput "b"; ClickSend] = true
  /\ inFlight
       (run Examples.customField RefParser.parse
          [ClickHelp 1%nat; ChangeInput "a"; ClickSend; ChangeInput "b"; ClickSend]
          (mount 0))
     = 1%nat.
Proof.
  split; [reflexivity|]. split; [reflexivity|].
  exact (send_button_keeps_one_in_flight
           Examples.customField RefParser.parse
           [ClickHelp 1%nat; ChangeInput "a"; ClickSend; ChangeInput "b"; ClickSend]
           (mount 0) eq_refl eq_refl).
Defined.

(** X2.  In every session from the mount, Enter key included, the
    loading flag is up only while a dispatch is in flight: whenever
    [isLoading] is true at least one suspended [handleSendMessage] is
    pending. *)
Theorem loading_implies_in_flight
    (props : AiConfigHelperProps) (JSON_parse : string -> option JsValue)
    (evs : list Event) (now : Z) :
  let w := run props JSON_parse evs (mount now) in
  isLoading w = true -> (1 <= inFlight w)%nat.
Proof.
  cbn zeta.
  assert (H : forall w0 : World,
             (isLoading w0 = true -> (1 <= inFlight w0)%nat) ->
             isLoading (run props JSON_parse evs w0) = true ->
             (1 <= inFlight (run props JSON_parse evs w0))%nat).
  { induction evs as [|ev evs IH]; intros w0 Hw0; [exact Hw0|].
    cbn [run]. apply IH.
    destruct (step_flight props JSON_parse ev w0) as [Hl Hn | Hl Hn _ | Hl Hn].
    - rewrite Hl, Hn. exact Hw0.
    - intros _. lia.
    - rewrite Hl. discriminate. }
  apply H. cbn. discriminate.
Qed.

Lemma loading_implies_in_flight_witness :
  isLoading
    (run Examples.customField RefParser.parse
       [ClickHelp 1%nat; ChangeInput "a"; KeyDown "Enter" false] (mount 0))
  = true
  /\ (1 <= inFlight
            (run Examples.customField RefParser.parse
               [ClickHelp 1%nat; ChangeInput "a"; KeyDown "Enter" false] (mount 0)))%nat.
Proof.
  split; [reflexivity|].
  apply (loading_implies_in_flight
           Examples.customField RefParser.parse
           [ClickHelp 1%nat; ChangeInput "a"; KeyDown "Enter" false] 0).
  reflexivity.
Defined.

(** X3.  The [finally] block lowers the loading flag without looking at
    the other dispatches: when two or more are in flight and one of them
    settles, [isLoading] is false afterwards although a dispatch is still
    pending. *)
Theorem first_settlement_lowers_flag_with_one_pending
    (props : AiConfigHelperProps) (JSON_parse : string -> option JsValue)
    (i : nat) (t : Task) (random : Q) (w : World) :
  nth_error (tasks w) i = Some t ->
  isDispatch t = true ->
  (2 <= inFlight w)%nat ->
  let w' := step props JSON_parse (RunTask i random) w in
  isLoading w' = false /\ (1 <= inFlight w')%nat.
Proof.
  intros Hnth Ht Htwo w'. subst w'. unfold step.
  rewrite dispatch_RunTask, Hnth.
  pose proof (filter_removeNth isDispatch i (tasks w) t Hnth) as Hcount.
  rewrite Ht in Hcount.
  destruct (runTask_settles props t random (withoutTask i w) Ht)
    as [added [logged ->]].
  split; [reflexivity|]. unfold inFlight in *. cbn. lia.
Qed.

Lemma first_settlement_lowers_flag_with_one_pending_witness :
  let w := step Examples.customField RefParser.parse (KeyDown "Enter" false)
             Examples.busyAgain in
  nth_error (tasks w) 1 = Some (AwaitHandler "help me" (Examples.customApi "help me"))
  /\ (2 <= inFlight w)%nat
  /\ isLoading (step Examples.customField RefParser.parse (RunTask 1 0%Q) w) = false
  /\ (1 <= inFlight (step Examples.customField RefParser.parse (RunTask 1 0%Q) w))%nat.
Proof.
  intros w. split; [reflexivity|].
  assert (H2 : (2 <= inFlight w)%nat) by (vm_compute; lia).
  split; [exact H2|].
  exact (first_settlement_lowers_flag_with_one_pending
           Examples.customField RefParser.parse 1
           (AwaitHandler "help me" (Examples.customApi "help me")) 0%Q w
           eq_refl eq_refl H2).
Defined.

(* ------------------------------------------------------------------ *)
(** * Who wrote the messages of a session                              *)
(* ------------------------------------------------------------------ *)

(** What one event appends: assistant messages, or the user message of
    a submit of non-blank input. *)
Lemma step_added_kinds
    (props : AiConfigHelperProps) (JSON_parse : string -> option JsValue)
    (ev : Event) (w : World) :
  exists added,
    messages (step props JSON_parse ev w) = (messages w ++ added)%list
    /\ Forall (fun m => isUser m = false
                        \/ (m = userMessageOf w
                            /\ JsString.trim (userInput w) <> "")) added.
Proof.
  assert (Hsend : exists added,
             messages (snd (handleSendMessage props w)) = (messages w ++ added)%list
             /\ Forall (fun m => isUser m = false
                                 \/ (m = userMessageOf w
                                     /\ JsString.trim (userInput w) <> "")) added).
  { destruct (String.eqb_spec (JsString.trim (userInput w)) "") as [Hb | Hn].
    - rewrite (handleSendMessage_blank props w Hb). exists [].
      split; [now rewrite app_nil_r | constructor].
    - rewrite (handleSendMessage_nonblank props w Hn). eexists.
      split; [reflexivity|]. constructor; [|constructor]. right. split; [reflexivity | exact Hn]. }
  assert (Hsame : exists added,
             messages w = (messages w ++ added)%list
             /\ Forall (fun m => isUser m = false
                                 \/ (m = userMessageOf w
                                     /\ JsString.trim (userInput w) <> "")) added).
  { exists []. split; [now rewrite app_nil_r | constructor]. }
  unfold step.
  destruct ev as [el | | value | key shiftKey | | i | dt | i random].
  - unfold dispatch, bind, render. cbn [snd].
    destruct (messages w) as [|m ms] eqn:E.
    + rewrite (handleOpenChat_empty props el w E). eexists.
      split; [reflexivity|]. constructor; [left; reflexivity | constructor].
    + rewrite handleOpenChat_nonempty by (rewrite E; discriminate).
      rewrite E. exists []. split; [now rewrite app_nil_r | constructor].
  - unfold dispatch, bind, render.
    destruct (isOpen w); cbn [negb]; exact Hsame.
  - unfold dispatch, bind, render.
    destruct (isOpen w); cbn [negb]; exact Hsame.
  - unfold dispatch, bind, render.
    destruct (isOpen w); cbn [negb]; [|exact Hsame].
    unfold handleKeyPress.
    destruct ((key =? "Enter") && negb shiftKey); [exact Hsend | exact Hsame].
  - unfold dispatch, bind, render.
    destruct (isOpen w); cbn [negb]; [|exact Hsame].
    destruct (sendDisabled w); [exact Hsame | exact Hsend].
  - unfold dispatch, bind, render.
    destruct (isOpen w); cbn [negb]; [|exact Hsame].
    destruct (nth_error (messages w) i) as [m|]; [|exact Hsame].
    destruct (isUser m); cbn [negb]; [exact Hsame|].
    rewrite keeps_handleApplyValue. exact Hsame.
  - exact Hsame.
  - rewrite dispatch_RunTask.
    destruct (nth_error (tasks w) i) as [t|]; [|exact Hsame].
    destruct (isDispatch t) eqn:Ht.
    + destruct (runTask_appends_assistant props t random (withoutTask i w) Ht)
        as [added [logged [-> [Hall _]]]].
      exists added. split; [reflexivity|].
      eapply Forall_impl; [|exact Hall]. intros m Hm. left. exact Hm.
    + destruct t; try discriminate. exact Hsame.
Qed.

Lemma welcomeFirst_step
    (props : AiConfigHelperProps) (JSON_parse : string -> option JsValue)
    (ev : Event) (w : World) :
  welcomeFirst props w -> welcomeFirst props (step props JSON_parse ev w).
Proof.
  intros Hw. unfold welcomeFirst in Hw.
  destruct (messages w) as [|m ms] eqn:E.
  - destruct Hw as [Ha Hf].
    assert (Hclosed : isOpen w = false) by (unfold isOpen; now rewrite Ha).
    assert (Hsame : welcomeFirst props w).
    { unfold welcomeFirst. rewrite E. split; assumption. }
    unfold step.
    destruct ev as [el | | value | key shiftKey | | i | dt | i random];
      try (unfold dispatch, bind, render; rewrite Hclosed; exact Hsame).
    + unfold welcomeFirst, dispatch, bind, render. cbn [snd].
      rewrite (handleOpenChat_empty props el w E). split; reflexivity.
    + unfold welcomeFirst. cbn. rewrite E. split; assumption.
    + rewrite dispatch_RunTask.
      destruct (nth_error (tasks w) i) as [t|] eqn:Hnth.
      * pose proof (filter_removeNth isDispatch i (tasks w) t Hnth) as Hcount.
        rewrite Hf in Hcount. cbn [length] in Hcount.
        destruct (isDispatch t) eqn:Ht; [lia|].
        destruct t; try discriminate.
        unfold welcomeFirst. cbn. rewrite E. split; [exact Ha|].
        apply length_zero_iff_nil. lia.
      * unfold welcomeFirst. cbn. rewrite E. split; [exact Ha|].
        now rewrite removeNth_out_of_range.
  - destruct (step_appends props JSON_parse ev w) as [added Hadd].
    unfold welcomeFirst. rewrite Hadd, E. exact Hw.
Qed.

(** X4.  In every session from the mount the conversation starts with
    the welcome message: the first message, if there is one, is the
    assistant's and its text is the welcome text; and as long as there is
    no message, the panel is closed and no dispatch is in flight. *)
Theorem conversation_starts_with_welcome
    (props : AiConfigHelperProps) (JSON_parse : string -> option JsValue)
    (evs : list Event) (now : Z) :
  let w := run props JSON_parse evs (mount now) in
  match messages w with
  | [] => isOpen w = false /\ inFlight w = 0%nat
  | first :: _ =>
      isUser first = false
      /\ text first
         = match welcomeMessage props with
           | Some custom =>
               if custom =? "" then defaultWelcomeMessage props else custom
           | None => defaultWelcomeMessage props
           end
  end.
Proof.
  cbn zeta.
  assert (H : forall w0, welcomeFirst props w0 ->
                         welcomeFirst props (run props JSON_parse evs w0)).
  { induction evs as [|ev evs IH]; intros w0 Hw0; [exact Hw0|].
    cbn [run]. apply IH, welcomeFirst_step, Hw0. }
  specialize (H (mount now)). unfold welcomeFirst at 1 in H. cbn in H.
  specialize (H (conj eq_refl eq_refl)).
  unfold welcomeFirst in H.
  destruct (messages (run props JSON_parse evs (mount now))) as [|first rest].
  - destruct H as [Ha Hf]. unfold isOpen, inFlight. rewrite Ha, Hf. split; reflexivity.
  - destruct H as [Ht Hu]. split; [exact Hu | exact Ht].
Qed.

(** X5.  No blank user message enters the conversation: if every user
    message of a state is non-empty and trimmed, so is every user message
    after any session from it.  This holds from the mount in particular. *)
Theorem user_messages_are_trimmed_and_non_empty
    (props : AiConfigHelperProps) (JSON_parse : string -> option JsValue)
    (evs : list Event) :
  forall w : World,
    Forall wellFormedUserMessage (messages w) ->
    Forall wellFormedUserMessage (messages (run props JSON_parse evs w)).
Proof.
  induction evs as [|ev evs IH]; intros w Hw; [exact Hw|].
  cbn [run]. apply IH.
  destruct (step_added_kinds props JSON_parse ev w) as [added [-> Hkinds]].
  apply Forall_app. split; [exact Hw|].
  eapply Forall_impl; [|exact Hkinds].
  intros m [Hm | [-> Hn]] Hu.
  - congruence.
  - cbn. split; [exact Hn | apply trim_idempotent].
Qed.

Lemma user_messages_are_trimmed_and_non_empty_witness :
  Forall wellFormedUserMessage (messages (mount 0))
  /\ Forall wellFormedUserMessage
       (messages
          (run Examples.customField RefParser.parse
             [ClickHelp 1%nat; ChangeInput "  help me  "; KeyDown "Enter" false;
              RunTask 1 0%Q; ChangeInput "   "; KeyDown "Enter" false]
             (mount 0)))
  /\ map text
       (filter isUser
          (messages
             (run Examples.customField RefParser.parse
                [ClickHelp 1%nat; ChangeInput "  help me  "; KeyDown "Enter" false;
                 RunTask 1 0%Q; ChangeInput "   "; KeyDown "Enter" false]
                (mount 0))))
     = ["help me"].
Proof.
  split; [constructor|]. split; [|reflexivity].
  apply (user_messages_are_trimmed_and_non_empty
           Examples.customField RefParser.parse
           [ClickHelp 1%nat; ChangeInput "  help me  "; KeyDown "Enter" false;
            RunTask 1 0%Q; ChangeInput "   "; KeyDown "Enter" false]
           (mount 0)).
  constructor.
Defined.

(* ------------------------------------------------------------------ *)
(** * When the callback of the host is called                          *)
(* ------------------------------------------------------------------ *)

Lemma handleSendMessage_applied (props : AiConfigHelperProps) (w : World) :
  applied (snd (handleSendMessage props w)) = applied w.
Proof.
  destruct (String.eqb_spec (JsString.trim (userInput w)) "") as [Hb | Hn].
  - now rewrite (handleSendMessage_blank props w Hb).
  - now rewrite (handleSendMessage_nonblank props w Hn).
Qed.

(** X6.  A response is never applied by itself: [onApplyValue] is called
    by no event other than a click on a message, and a click on a user
    message changes nothing at all.  Without an [onApplyValue] no session
    calls anything. *)
Theorem apply_needs_a_click_on_an_assistant_message
    (props : AiConfigHelperProps) (JSON_parse : string -> option JsValue)
    (ev : Event) (evs : list Event) (i : nat) (m : Message) (w : World) :
  (isClickMessage ev = false ->
   applied (step props JSON_parse ev w) = applied w)
  /\ (nth_error (messages w) i = Some m -> isUser m = true ->
      dispatch props JSON_parse (ClickMessage i) w = (inl tt, w))
  /\ (nth_error (messages w) i = None ->
      dispatch props JSON_parse (ClickMessage i) w = (inl tt, w))
  /\ (onApplyValue props = None ->
      applied (run props JSON_parse evs w) = applied w).
Proof.
  assert (Hstep : forall ev0 w0,
             isClickMessage ev0 = false \/ onApplyValue props = None ->
             applied (step props JSON_parse ev0 w0) = applied w0).
  { intros ev0 w0 Hor. unfold step.
    destruct ev0 as [el | | value | key shiftKey | | j | dt | j random].
    - unfold dispatch, bind, render. cbn [snd].
      apply (handleOpenChat_frame props el w0).
    - unfold dispatch, bind, render. destruct (isOpen w0); reflexivity.
    - unfold dispatch, bind, render. destruct (isOpen w0); reflexivity.
    - unfold dispatch, bind, render. destruct (isOpen w0); cbn [negb]; [|reflexivity].
      unfold handleKeyPress.
      destruct ((key =? "Enter") && negb shiftKey); [|reflexivity].
      apply handleSendMessage_applied.
    - unfold dispatch, bind, render. destruct (isOpen w0); cbn [negb]; [|reflexivity].
      destruct (sendDisabled w0); [reflexivity|]. apply handleSendMessage_applied.
    - destruct Hor as [Hc | Hnone]; [discriminate|].
      unfold dispatch, bind, render. destruct (isOpen w0); cbn [negb]; [|reflexivity].
      destruct (nth_error (messages w0) j) as [m0|]; [|reflexivity].
      destruct (isUser m0); cbn [negb]; [reflexivity|].
      unfold handleApplyValue. rewrite Hnone. reflexivity.
    - reflexivity.
    - rewrite dispatch_RunTask.
      destruct (nth_error (tasks w0) j) as [t|]; [|reflexivity].
      destruct (isDispatch t) eqn:Ht.
      + destruct (runTask_settles props t random (withoutTask j w0) Ht)
          as [added [logged ->]]. reflexivity.
      + destruct t; try discriminate. reflexivity. }
  split; [|split; [|split]].
  - intros Hc. apply Hstep. left. exact Hc.
  - intros Hnth Hu. unfold dispatch, bind, render. rewrite Hnth, Hu.
    destruct (isOpen w); reflexivity.
  - intros Hnth. unfold dispatch, bind, render. rewrite Hnth.
    destruct (isOpen w); reflexivity.
  - intros Hnone. revert w. induction evs as [|ev0 evs IH]; intros w; [reflexivity|].
    cbn [run]. rewrite IH. apply Hstep. right. exact Hnone.
Qed.

Lemma apply_needs_a_click_on_an_assistant_message_witness :
  let w :=
    run Examples.schemaField RefParser.parse
      [ClickHelp 1%nat; ChangeInput "help me"; KeyDown "Enter" false;
       RunTask 1 (1 # 2)%Q]
      (mount 0) in
  isClickMessage ClosePopover = false
  /\ nth_error (messages w) 1 = Some {| text := "help me"; isUser := true; timestamp := 0 |}
  /\ applied w = []
  /\ applied (step Examples.schemaField RefParser.parse ClosePopover w) = []
  /\ step Examples.schemaField RefParser.parse (ClickMessage 1) w = w.
Proof.
  intros w. split; [reflexivity|]. split; [reflexivity|]. split; [reflexivity|].
  destruct (apply_needs_a_click_on_an_assistant_message
              Examples.schemaField RefParser.parse ClosePopover [] 1
              {| text := "help me"; isUser := true; timestamp := 0 |} w)
    as [Hother [Huser _]].
  split.
  - exact (Hother eq_refl).
  - unfold step. rewrite (Huser eq_refl eq_refl). reflexivity.
Defined.

(** X7.  Every assistant message is a button, not only the payload
    message: with the panel open and an [onApplyValue], a click on any
    message that is not the user's (the welcome message, the lead-in, the
    invitation and an error report included) calls the callback, first
    with the text parsed as JSON, or with the text itself when it does
    not parse. *)
Theorem every_assistant_message_applies
    (props : AiConfigHelperProps) (JSON_parse : string -> option JsValue)
    (callback : JsValue -> option Thrown) (i : nat) (m : Message) (w : World) :
  onApplyValue props = Some callback ->
  isOpen w = true ->
  nth_error (messages w) i = Some m ->
  isUser m = false ->
  exists more,
    applied (step props JSON_parse (ClickMessage i) w)
    = (applied w ++ appliedValue JSON_parse (text m) :: more)%list.
Proof.
  intros Hcb Ho Hnth Hu. unfold step, dispatch, bind, render.
  rewrite Ho, Hnth, Hu. cbn [negb].
  unfold handleApplyValue. rewrite Hcb.
  unfold tryCatch, bind, liftThrow, ret, throw, callApply, appliedValue.
  destruct (JSON_parse (text m)) as [v|]; cbn.
  - destruct (callback v); cbn.
    + destruct (callback (VStr (text m))); cbn;
        exists [VStr (text m)]; rewrite <- app_assoc; reflexivity.
    + exists []. reflexivity.
  - destruct (callback (VStr (text m))); cbn; exists []; reflexivity.
Qed.

Lemma every_assistant_message_applies_witness :
  let w := step Examples.customField RefParser.parse (ClickHelp 1%nat) (mount 0) in
  onApplyValue Examples.customField = Some (fun _ => None)
  /\ isOpen w = true
  /\ nth_error (messages w) 0
     = Some {| text := "Hello! This is a custom welcome message.";
               isUser := false; timestamp := 0 |}
  /\ exists more,
      applied (step Examples.customField RefParser.parse (ClickMessage 0) w)
      = VStr "Hello! This is a custom welcome message." :: more.
Proof.
  intros w. split; [reflexivity|]. split; [reflexivity|]. split; [reflexivity|].
  exact (every_assistant_message_applies
           Examples.customField RefParser.parse (fun _ => None) 0
           {| text := "Hello! This is a custom welcome message.";
              isUser := false; timestamp := 0 |}
           w eq_refl eq_refl eq_refl eq_refl).
Defined.

(** X8.  When [onApplyValue] throws on the parsed value, the [catch]
    block, meant for a text that is not JSON, calls it a second time with
    the text itself; what that second call does is the outcome of
    [handleApplyValue], so an exception of the callback on the text
    leaves the handler. *)
Theorem throwing_callback_is_called_again_with_the_text
    (props : AiConfigHelperProps) (JSON_parse : string -> option JsValue)
    (callback : JsValue -> option Thrown) (message : string)
    (value : JsValue) (e : Thrown) (w : World) :
  onApplyValue props = Some callback ->
  JSON_parse message = Some value ->
  callback value = Some e ->
  let r := handleApplyValue props JSON_parse message w in
  applied (snd r) = (applied w ++ [value; VStr message])%list
  /\ fst r = match callback (VStr message) with
             | None => inl tt
             | Some e' => inr e'
             end.
Proof.
  intros Hcb Hp He r. subst r. unfold handleApplyValue. rewrite Hcb, Hp.
  unfold tryCatch, bind, liftThrow, ret, callApply. cbn. rewrite He. cbn.
  destruct (callback (VStr message)); cbn; rewrite <- app_assoc; split; reflexivity.
Qed.

Lemma throwing_callback_is_called_again_with_the_text_witness :
  let onlyStrings (v : JsValue) : option Thrown :=
    match v with
    | VStr _ => None
    | _ => Some (ErrorObject "TypeError" "value.trim is not a function")
    end in
  let p := {| fieldId := "description"; fieldName := "Description";
              onApplyValue := Some onlyStrings;
              placement := None; onSendMessage := None; welcomeMessage := None;
              helpButtonLabel := None; styles := None |} in
  RefParser.parse "42" = Some (VNum 42)
  /\ onlyStrings (VNum 42)
     = Some (ErrorObject "TypeError" "value.trim is not a function")
  /\ applied (snd (handleApplyValue p RefParser.parse "42" (Examples.typed "")))
     = [VNum 42; VStr "42"]
  /\ fst (handleApplyValue p RefParser.parse "42" (Examples.typed "")) = inl tt.
Proof.
  intros onlyStrings p. split; [reflexivity|]. split; [reflexivity|].
  exact (throwing_callback_is_called_again_with_the_text
           p RefParser.parse onlyStrings "42" (VNum 42)
           (ErrorObject "TypeError" "value.trim is not a function")
           (Examples.typed "") eq_refl eq_refl eq_refl).
Defined.

(* ------------------------------------------------------------------ *)
(** * Settlements: no cancellation, and the payloads without a text    *)
(* ------------------------------------------------------------------ *)

Lemma close_when_open
    (props : AiConfigHelperProps) (JSON_parse : string -> option JsValue) (w : World) :
  isOpen w = true ->
  step props JSON_parse ClosePopover w
  = {| anchorEl := None; userInput := userInput w; messages := messages w;
       isLoading := isLoading w; clock := clock w; tasks := tasks w;
       console := console w; applied := applied w |}.
Proof.
  intros Ho. unfold step, dispatch, bind, render. rewrite Ho. reflexivity.
Qed.

(** X9.  Closing the panel does not cancel a dispatch: after Enter on a
    non-blank input, closing, and then the settlement, the panel is still
    closed, the loading flag is false, and the conversation has grown by
    the user message and by one to three assistant messages. *)
Theorem closing_does_not_cancel_the_dispatch
    (props : AiConfigHelperProps) (JSON_parse : string -> option JsValue)
    (random : Q) (w : World) :
  isOpen w = true ->
  JsString.trim (userInput w) <> "" ->
  let w' :=
    run props JSON_parse
      [KeyDown "Enter" false; ClosePopover; RunTask (length (tasks w)) random] w in
  isOpen w' = false
  /\ isLoading w' = false
  /\ exists replies,
      messages w' = (messages w ++ userMessageOf w :: replies)%list
      /\ Forall (fun m => isUser m = false) replies
      /\ (1 <= length replies <= 3)%nat.
Proof.
  intros Ho Hin w'. subst w'. cbn [run].
  assert (H1 : step props JSON_parse (KeyDown "Enter" false) w
               = snd (handleSendMessage props w)).
  { unfold step. now rewrite enter_is_handleSendMessage. }
  rewrite H1, (handleSendMessage_nonblank props w Hin). cbn [snd].
  rewrite close_when_open by (unfold isOpen in *; cbn; exact Ho).
  cbn [anchorEl userInput messages isLoading clock tasks console applied].
  unfold step. rewrite dispatch_RunTask.
  cbn [tasks]. rewrite nth_error_snoc.
  match goal with
  | |- context [runTask props ?t random ?w0] =>
      destruct (runTask_appends_assistant props t random w0
                  (isDispatch_dispatchOf props _))
        as [added [logged [-> [Hall Hlen]]]]
  end.
  cbn. split; [reflexivity|]. split; [reflexivity|].
  exists added. rewrite <- app_assoc. repeat split; try assumption; lia.
Qed.

Lemma closing_does_not_cancel_the_dispatch_witness :
  isOpen (Examples.typed "help") = true
  /\ JsString.trim (userInput (Examples.typed "help")) <> ""
  /\ isOpen
       (run Examples.customField RefParser.parse
          [KeyDown "Enter" false; ClosePopover; RunTask 0 0%Q] (Examples.typed "help"))
     = false
  /\ length
       (messages
          (run Examples.customField RefParser.parse
             [KeyDown "Enter" false; ClosePopover; RunTask 0 0%Q]
             (Examples.typed "help")))
     = 4%nat.
Proof.
  split; [reflexivity|]. split; [discriminate|].
  destruct (closing_does_not_cancel_the_dispatch
              Examples.customField RefParser.parse 0%Q (Examples.typed "help"))
    as [Hclosed _]; [reflexivity | discriminate |].
  split; [exact Hclosed | reflexivity].
Defined.

(** X10.  The payloads at the edge of [typeof payload === "object"].  A
    payload of [null] is an object for [typeof]: it is printed by
    [JSON.stringify] as the text "null", in the usual three messages.  A
    payload of [undefined] is not, and [undefined.toString()] throws: the
    lead-in is already appended, and the [catch] block adds its report,
    two assistant messages in all.  In both cases nothing is propagated
    and the loading flag is lowered. *)
Theorem null_and_undefined_payloads
    (props : AiConfigHelperProps) (sent : string) (random : Q) (w : World) :
  let settle (v : JsValue) :=
    runTask props (AwaitHandler sent (Fulfilled {| payload := v |})) random w in
  (fst (settle VNull) = inl tt
   /\ isLoading (snd (settle VNull)) = false
   /\ messages (snd (settle VNull))
      = (messages w
         ++ [ assistantMessage (leadInText props) w;
              assistantMessage "null" w;
              assistantMessage suggestionText w ])%list)
  /\ (fst (settle VUndefined) = inl tt
      /\ isLoading (snd (settle VUndefined)) = false
      /\ exists detail,
          messages (snd (settle VUndefined))
          = (messages w
             ++ [ assistantMessage (leadInText props) w;
                  assistantMessage ("Sorry, I encountered an error: " ++ detail) w ])%list).
Proof.
  intros settle. subst settle. cbn beta. split.
  - cbn [runTask]. rewrite resume_fulfilled_eq.
    rewrite (resume_ok props {| payload := VNull |} "null" w eq_refl).
    repeat split.
  - cbn [runTask]. rewrite resume_fulfilled_eq.
    rewrite (resume_payload_throws props {| payload := VUndefined |} _ w
               payloadText_undefined).
    split; [reflexivity|]. split; [reflexivity|].
    eexists. reflexivity.
Qed.

(* ------------------------------------------------------------------ *)
(** * From the response to the field: printing, then applying          *)
(* ------------------------------------------------------------------ *)

Lemma nth_error_middle {A} (xs : list A) (a b c : A) :
  nth_error (xs ++ [a; b; c]) (S (length xs)) = Some b.
Proof. induction xs as [|x xs IH]; simpl; [reflexivity | exact IH]. Qed.

(** X11.  What a click on the payload message gives back to the host.
    After a fulfilled response with a defined payload, the payload
    message is the second of the three appended; a click on it calls the
    callback once, with the printed text parsed, or with the text itself
    when it does not parse.  So the payload itself comes back whenever
    [JSON.parse] undoes the printing, as for structured values; but a
    string payload comes back as what the string parses to, when it
    parses (the string "42" as the number 42). *)
Theorem payload_message_click
    (props : AiConfigHelperProps) (JSON_parse : string -> option JsValue)
    (callback : JsValue -> option Thrown)
    (response : MessageResponse) (sent : string) (random : Q) (w : World) :
  onApplyValue props = Some callback ->
  (forall v, callback v = None) ->
  isOpen w = true ->
  payload response <> VUndefined ->
  let w1 := snd (runTask props (AwaitHandler sent (Fulfilled response)) random w) in
  let w2 := step props JSON_parse (ClickMessage (S (length (messages w)))) w1 in
  exists txt,
    rendersAs (payload response) txt
    /\ applied w2 = (applied w ++ [appliedValue JSON_parse txt])%list
    /\ (JSON_parse txt = Some (payload response) ->
        applied w2 = (applied w ++ [payload response])%list)
    /\ (forall s v, payload response = VStr s -> JSON_parse s = Some v ->
        applied w2 = (applied w ++ [v])%list)
    /\ (forall s, payload response = VStr s -> JSON_parse s = None ->
        applied w2 = (applied w ++ [VStr s])%list).
Proof.
  intros Hcb Hret Ho Hdef w1 w2.
  destruct (payloadText_rendersAs (payload response) Hdef) as [txt [Htxt Hr]].
  exists txt. split; [exact Hr|].
  assert (Happ : applied w2 = (applied w ++ [appliedValue JSON_parse txt])%list).
  { subst w2 w1. cbn [runTask]. rewrite resume_fulfilled_eq.
    rewrite (resume_ok props response txt w Htxt). cbn [snd].
    unfold step, dispatch, bind, render.
    replace (isOpen (settledWorld w _ _)) with true by (symmetry; exact Ho).
    cbn [negb]. unfold settledWorld at 1. cbn [messages].
    rewrite nth_error_middle. cbn [isUser assistantMessage negb text].
    unfold handleApplyValue. rewrite Hcb.
    unfold tryCatch, bind, liftThrow, ret, throw, callApply, appliedValue.
    destruct (JSON_parse txt) as [v|]; cbn; rewrite Hret; reflexivity. }
  split; [exact Happ|]. split; [|split].
  - intros Hp. rewrite Happ. unfold appliedValue. now rewrite Hp.
  - intros s v Hs Hp. rewrite Happ. rewrite Hs in Hr. cbn in Hr. subst txt.
    unfold appliedValue. now rewrite Hp.
  - intros s Hs Hp. rewrite Happ. rewrite Hs in Hr. cbn in Hr. subst txt.
    unfold appliedValue. now rewrite Hp.
Qed.

Lemma payload_message_click_witness :
  let w := Examples.typed "" in
  let click (v : JsValue) :=
    applied
      (step Examples.schemaField RefParser.parse (ClickMessage 1)
         (snd (runTask Examples.schemaField
                 (AwaitHandler "help me" (Fulfilled {| payload := v |})) 0%Q w))) in
  onApplyValue Examples.schemaField = Some (fun _ => None)
  /\ isOpen w = true
  /\ RefParser.parse "42" = Some (VNum 42)
  /\ click examplePayload = [examplePayload]
  /\ click (VStr "42") = [VNum 42].
Proof.
  intros w click. split; [reflexivity|]. split; [reflexivity|]. split; [reflexivity|].
  split.
  - destruct (payload_message_click
                Examples.schemaField RefParser.parse (fun _ => None)
                {| payload := examplePayload |} "help me" 0%Q w
                eq_refl (fun _ => eq_refl) eq_refl)
      as [txt [Hr [_ [Hback _]]]]; [discriminate|].
    apply Hback. cbn in Hr. injection Hr as <-. reflexivity.
  - destruct (payload_message_click
                Examples.schemaField RefParser.parse (fun _ => None)
                {| payload := VStr "42" |} "help me" 0%Q w
                eq_refl (fun _ => eq_refl) eq_refl)
      as [txt [_ [_ [_ [Hstr _]]]]]; [discriminate|].
    exact (Hstr "42" (VNum 42) eq_refl eq_refl).
Defined.

(** The reference parser undoes the printing of the three payloads of
    the mock. *)
Lemma mock_payloads_parse_back :
  Forall (fun v => match JSON.stringify v 2 with
                   | Some txt => RefParser.parse txt = Some v
                   | None => False
                   end)
    [schemaPayload; examplePayload; configurationPayload].
Proof. repeat constructor. Qed.

(* ------------------------------------------------------------------ *)
(** * The placement of the popover                                     *)
(* ------------------------------------------------------------------ *)

(** X12.  For every placement the popover is attached at the middle of
    the side of the trigger that the placement names, by the opposite
    point of its own box: it lies outside the trigger on that side.  An
    absent placement is "right", and different placements give different
    positions. *)
Theorem popover_opens_away_from_the_named_side (props props' : AiConfigHelperProps) :
  let pos := getPopoverPosition props in
  sideOf (anchorOrigin pos) = Some (placementOrDefault props)
  /\ transformOrigin pos = opposite (anchorOrigin pos)
  /\ (placement props = None -> sideOf (anchorOrigin pos) = Some PlaceRight)
  /\ (getPopoverPosition props = getPopoverPosition props' ->
      placementOrDefault props = placementOrDefault props').
Proof.
  cbn zeta. unfold getPopoverPosition.
  split; [|split; [|split]].
  - destruct (placementOrDefault props); reflexivity.
  - destruct (placementOrDefault props); reflexivity.
  - intros H. unfold placementOrDefault. rewrite H. reflexivity.
  - destruct (placementOrDefault props), (placementOrDefault props');
      intros H; try reflexivity; discriminate.
Qed.

Lemma popover_opens_away_from_the_named_side_witness :
  placement Examples.schemaField = None
  /\ getPopoverPosition Examples.schemaField
     = {| anchorOrigin :=
            {| vertical := VerticalCenter; horizontal := HorizontalRight |};
          transformOrigin :=
            {| vertical := VerticalCenter; horizontal := HorizontalLeft |} |}.
Proof.
  split; [reflexivity|].
  destruct (popover_opens_away_from_the_named_side
              Examples.schemaField Examples.schemaField)
    as [_ [Hopp [Hright _]]].
  specialize (Hright eq_refl).
  destruct (getPopoverPosition Examples.schemaField) as [[av ah] t].
  cbn in Hopp, Hright. subst t.
  destruct av, ah; try discriminate. reflexivity.
Defined.

(* ------------------------------------------------------------------ *)
(** * The JSON editor of the example application                       *)
(* ------------------------------------------------------------------ *)

(** X13.  [SimpleJsonEditor.handleChange]: the text box always shows what
    was typed, valid or not.  A text that does not parse never reaches
    [onChange] and sets the error "Invalid JSON"; a text that parses is
    passed to [onChange] once, as the parsed value.  The error after an
    edit depends on that edit only: it is absent exactly when the text
    parsed and [onChange] returned, whatever error was shown before. *)
Theorem editor_reports_only_the_last_edit
    (JSON_parse : string -> option JsValue) (onChange : JsValue -> option Thrown)
    (newText : string) (st st0 : SimpleJsonEditor.State) :
  let st' := SimpleJsonEditor.handleChange JSON_parse onChange newText st in
  SimpleJsonEditor.textValue st' = newText
  /\ (JSON_parse newText = None ->
      SimpleJsonEditor.changes st' = SimpleJsonEditor.changes st
      /\ SimpleJsonEditor.error st' = Some "Invalid JSON")
  /\ (forall v, JSON_parse newText = Some v ->
      SimpleJsonEditor.changes st' = (SimpleJsonEditor.changes st ++ [v])%list)
  /\ (SimpleJsonEditor.error st' = None <->
      exists v, JSON_parse newText = Some v /\ onChange v = None)
  /\ SimpleJsonEditor.error st'
     = SimpleJsonEditor.error
         (SimpleJsonEditor.handleChange JSON_parse onChange newText st0).
Proof.
  cbn zeta. unfold SimpleJsonEditor.handleChange.
  destruct (JSON_parse newText) as [v|] eqn:Hp.
  - destruct (onChange v) as [e|] eqn:Hc; cbn.
    + repeat split; try discriminate.
      * intros v' [= <-]. reflexivity.
      * intros [v' [[= <-] Hv']]. congruence.
    + repeat split; try discriminate.
      * intros v' [= <-]. reflexivity.
      * intros _. exists v. split; [reflexivity | exact Hc].
  - cbn. repeat split; try discriminate.
    intros [v [Hv _]]. discriminate.
Qed.

Lemma editor_reports_only_the_last_edit_witness :
  let open := "{" ++ dq ++ "type" ++ dq ++ ":" in
  let whole := open ++ dq ++ "object" ++ dq ++ "}" in
  let st :=
    SimpleJsonEditor.edits RefParser.parse (fun _ => None) [open; whole]
      (SimpleJsonEditor.init (VObj [])) in
  RefParser.parse open = None
  /\ RefParser.parse whole = Some (VObj [("type", VStr "object")])
  /\ SimpleJsonEditor.error
       (SimpleJsonEditor.handleChange RefParser.parse (fun _ => None) open
          (SimpleJsonEditor.init (VObj [])))
     = Some "Invalid JSON"
  /\ SimpleJsonEditor.error st = None
  /\ SimpleJsonEditor.changes st = [VObj [("type", VStr "object")]].
Proof.
  intros open whole st. split; [reflexivity|]. split; [reflexivity|].
  destruct (editor_reports_only_the_last_edit
              RefParser.parse (fun _ => None) open
              (SimpleJsonEditor.init (VObj [])) (SimpleJsonEditor.init (VObj [])))
    as [_ [Hbad _]].
  destruct (Hbad eq_refl) as [Hsame Herr].
  split; [exact Herr|].
  destruct (editor_reports_only_the_last_edit
              RefParser.parse (fun _ => None) whole
              (SimpleJsonEditor.handleChange RefParser.parse (fun _ => None) open
                 (SimpleJsonEditor.init (VObj [])))
              (SimpleJsonEditor.init (VObj [])))
    as [_ [_ [Hgood [Hnone _]]]].
  split.
  - apply Hnone. exists (VObj [("type", VStr "object")]). split; reflexivity.
  - subst st. cbn [SimpleJsonEditor.edits].
    rewrite (Hgood _ eq_refl), Hsame. reflexivity.
Defined.

(* ------------------------------------------------------------------ *)
(** * The custom handler of the example application                    *)
(* ------------------------------------------------------------------ *)

Lemma handleCustomApiRequest_cases (message : string) :
  let lower := JsString.toLowerCase message in
  exists s,
    App.handleCustomApiRequest message = Fulfilled {| payload := VStr s |}
    /\ ((JsString.includes lower "color" = true
         /\ s = "A vibrant shade of purple that complements the design.")
        \/ (JsString.includes lower "color" = false
            /\ JsString.includes lower "size" = true
            /\ s = "Medium size (fits most design systems).")
        \/ (JsString.includes lower "color" = false
            /\ JsString.includes lower "size" = false
            /\ s = "This is a custom response from the API handler.")).
Proof.
  cbn zeta. unfold App.handleCustomApiRequest.
  destruct (JsString.includes (JsString.toLowerCase message) "color").
  - eexists. split; [reflexivity|]. left. split; reflexivity.
  - destruct (JsString.includes (JsString.toLowerCase message) "size").
    + eexists. split; [reflexivity|]. right; left. repeat split.
    + eexists. split; [reflexivity|]. right; right. repeat split.
Qed.

(** X14.  The "Custom Field" helper of the example application never
    shows an error: whatever non-blank text is submitted, the handler
    fulfils with a string, and the settlement appends the lead-in, that
    string as it is, and the invitation.  The string is chosen by what
    the trimmed text contains, without regard to case: the colour answer
    when it contains "color" (also when it contains "size" as well), the
    size answer when it contains "size" only, the general answer
    otherwise. *)
Theorem custom_field_always_answers
    (JSON_parse : string -> option JsValue) (random : Q) (w : World) :
  isOpen w = true ->
  JsString.trim (userInput w) <> "" ->
  let lower := JsString.toLowerCase (JsString.trim (userInput w)) in
  let contains (sub : string) := exists pre post, lower = pre ++ sub ++ post in
  let w' :=
    run App.customFieldProps JSON_parse
      [KeyDown "Enter" false; RunTask (length (tasks w)) random] w in
  exists answer,
    messages w'
    = (messages w
       ++ [ userMessageOf w;
            assistantMessage (leadInText App.customFieldProps) w;
            assistantMessage answer w;
            assistantMessage suggestionText w ])%list
    /\ isLoading w' = false
    /\ (contains "color" ->
        answer = "A vibrant shade of purple that complements the design.")
    /\ (~ contains "color" -> contains "size" ->
        answer = "Medium size (fits most design systems).")
    /\ (~ contains "color" -> ~ contains "size" ->
        answer = "This is a custom response from the API handler.").
Proof.
  intros Ho Hin lower contains w'. subst w'. cbn [run].
  assert (H1 : step App.customFieldProps JSON_parse (KeyDown "Enter" false) w
               = snd (handleSendMessage App.customFieldProps w)).
  { unfold step. now rewrite enter_is_handleSendMessage. }
  rewrite H1, (handleSendMessage_nonblank App.customFieldProps w Hin). cbn [snd].
  unfold step. rewrite dispatch_RunTask. cbn [tasks]. rewrite nth_error_snoc.
  unfold dispatchOf. cbn [onSendMessage App.customFieldProps].
  destruct (handleCustomApiRequest_cases (JsString.trim (userInput w)))
    as [answer [-> Hcases]].
  cbn [runTask]. rewrite resume_fulfilled_eq.
  rewrite (resume_ok App.customFieldProps {| payload := VStr answer |} answer _ eq_refl).
  exists answer. cbn. rewrite <- app_assoc.
  split; [reflexivity|]. split; [reflexivity|].
  assert (Hc : forall sub, JsString.includes lower sub = true <-> contains sub).
  { intros sub. apply includes_spec. }
  fold lower in Hcases.
  destruct Hcases as [[Hcol ->] | [[Hcol [Hsz ->]] | [Hcol [Hsz ->]]]].
  - repeat split; try reflexivity.
    + intros Hn. exfalso. apply Hn, Hc, Hcol.
    + intros Hn. exfalso. apply Hn, Hc, Hcol.
  - repeat split; try reflexivity.
    + intros Hy. apply Hc in Hy. congruence.
    + intros _ Hn. exfalso. apply Hn, Hc, Hsz.
  - repeat split; try reflexivity.
    + intros Hy. apply Hc in Hy. congruence.
    + intros _ Hy. apply Hc in Hy. congruence.
Qed.

Lemma custom_field_always_answers_witness :
  isOpen (Examples.typed " What SIZE and Color? ") = true
  /\ JsString.trim (userInput (Examples.typed " What SIZE and Color? ")) <> ""
  /\ map text
       (messages
          (run App.customFieldProps RefParser.parse
             [KeyDown "Enter" false; RunTask 0 0%Q]
             (Examples.typed " What SIZE and Color? ")))
     = [ "What SIZE and Color?";
         "Here's what I suggest for the " ++ dq ++ "Custom Field" ++ dq ++ " field:";
         "A vibrant shade of purple that complements the design.";
         "Would you like to apply this value to the field? Just click on the message." ].
Proof.
  split; [reflexivity|]. split; [discriminate|].
  destruct (custom_field_always_answers
              RefParser.parse 0%Q (Examples.typed " What SIZE and Color? "))
    as [answer [Hm [_ [Hcolor _]]]]; [reflexivity | discriminate |].
  cbn [Examples.typed tasks length] in Hm. rewrite Hm.
  rewrite (Hcolor (ex_intro _ "what size and " (ex_intro _ "?" eq_refl))).
  reflexivity.
Defined.

(* ------------------------------------------------------------------ *)
(** * Keys, the send button, and the identifier of the panel           *)
(* ------------------------------------------------------------------ *)

Lemma snoc_not_same {A} (xs : list A) (x : A) : (xs ++ [x])%list <> xs.
Proof.
  intros H. apply (f_equal (@length A)) in H. rewrite length_app in H.
  cbn in H. lia.
Qed.

(** X15.  A key press changes the state exactly when it is Enter without
    Shift, in the open panel, on an input that is not blank: Shift+Enter,
    any other key, and Enter on a blank input do nothing. *)
Theorem only_plain_enter_submits
    (props : AiConfigHelperProps) (JSON_parse : string -> option JsValue)
    (key : string) (shiftKey : bool) (w : World) :
  step props JSON_parse (KeyDown key shiftKey) w <> w
  <-> (key = "Enter" /\ shiftKey = false /\ isOpen w = true
       /\ JsString.trim (userInput w) <> "").
Proof.
  unfold step, dispatch, bind, render. split.
  - intros Hne. destruct (isOpen w) eqn:Ho; cbn [negb] in Hne; [|now contradiction Hne].
    unfold handleKeyPress in Hne.
    destruct (String.eqb_spec key "Enter") as [-> | Hk];
      cbn [andb] in Hne; [|now contradiction Hne].
    destruct shiftKey; cbn [negb] in Hne; [now contradiction Hne|].
    repeat split. intros Hb. apply Hne.
    now rewrite (handleSendMessage_blank props w Hb).
  - intros [-> [-> [Ho Hin]]]. rewrite Ho. cbn [negb].
    unfold handleKeyPress. cbn [String.eqb Ascii.eqb Bool.eqb andb negb].
    rewrite (handleSendMessage_nonblank props w Hin). cbn [snd].
    intros H. apply (f_equal messages) in H. cbn [messages] in H.
    exact (snoc_not_same _ _ H).
Qed.

Lemma only_plain_enter_submits_witness :
  step Examples.customField RefParser.parse (KeyDown "Enter" true)
    (Examples.typed "help")
  = Examples.typed "help"
  /\ step Examples.customField RefParser.parse (KeyDown "Enter" false)
       (Examples.typed "help")
     <> Examples.typed "help".
Proof.
  split; [reflexivity|].
  - apply (only_plain_enter_submits
             Examples.customField RefParser.parse "Enter" false
             (Examples.typed "help")).
    repeat split. discriminate.
Defined.

(** X16.  While no dispatch is in flight the send button and the Enter
    key are the same submit: from every state with the loading flag down,
    a click on the button and Enter without Shift have the same outcome
    and leave the same state. *)
Theorem button_and_enter_agree_when_idle
    (props : AiConfigHelperProps) (JSON_parse : string -> option JsValue) (w : World) :
  isLoading w = false ->
  dispatch props JSON_parse ClickSend w
  = dispatch props JSON_parse (KeyDown "Enter" false) w.
Proof.
  intros Hl. unfold dispatch, bind, render.
  destruct (isOpen w); cbn [negb]; [|reflexivity].
  unfold sendDisabled, handleKeyPress. rewrite Hl, orb_false_r.
  cbn [String.eqb Ascii.eqb Bool.eqb andb negb].
  destruct (String.eqb_spec (JsString.trim (userInput w)) "") as [Hb | Hn];
    [|reflexivity].
  now rewrite (handleSendMessage_blank props w Hb).
Qed.

Lemma button_and_enter_agree_when_idle_witness :
  isLoading (Examples.typed "help") = false
  /\ step Examples.customField RefParser.parse ClickSend (Examples.typed "help")
     = step Examples.customField RefParser.parse (KeyDown "Enter" false)
         (Examples.typed "help")
  /\ isLoading
       (step Examples.customField RefParser.parse ClickSend (Examples.typed "help"))
     = true.
Proof.
  split; [reflexivity|]. split; [|reflexivity].
  unfold step.
  rewrite (button_and_enter_agree_when_idle
             Examples.customField RefParser.parse (Examples.typed "help") eq_refl).
  reflexivity.
Defined.

(** X17.  The identifier of the popover exists exactly while the panel is
    open, and it determines the field: two helpers whose open panels have
    the same identifier have the same [fieldId]. *)
Theorem popover_id_identifies_the_field
    (props props' : AiConfigHelperProps) (w w' : World) (id : string) :
  (popoverId props w = None <-> isOpen w = false)
  /\ (popoverId props w = Some id -> popoverId props' w' = Some id ->
      fieldId props = fieldId props').
Proof.
  unfold popoverId. split.
  - destruct (isOpen w); split; intros H; try reflexivity; discriminate.
  - destruct (isOpen w); [|discriminate]. destruct (isOpen w'); [|discriminate].
    intros [= H1] [= H2]. rewrite <- H2 in H1.
    now injection H1.
Qed.

Lemma popover_id_identifies_the_field_witness :
  popoverId Examples.schemaField (Examples.typed "") = Some "ai-helper-popover-schema"
  /\ popoverId Examples.schemaField (mount 0) = None
  /\ fieldId Examples.schemaField = fieldId Examples.schemaField.
Proof.
  split; [reflexivity|].
  destruct (popover_id_identifies_the_field
              Examples.schemaField Examples.schemaField
              (mount 0) (Examples.typed "") "ai-helper-popover-schema")
    as [Hnone _].
  split; [apply Hnone; reflexivity|].
  destruct (popover_id_identifies_the_field
              Examples.schemaField Examples.schemaField
              (Examples.typed "") (Examples.typed "") "ai-helper-popover-schema")
    as [_ Hsame].
  exact (Hsame eq_refl eq_refl).
Defined.
